(** * Arduino8088 host client: a shallow embedding of [client/python3/client.py]

    The Python class [Arduino8088Client] talks to the Arduino8088 board over
    a pyserial port.  The embedding keeps the shape of the source: Python
    integers are [Z], a [bytes]/[bytearray] value and a list of ints are
    [list Z], [None]-or-value is [option], a raised exception is the [Raise]
    branch of [result], and the serial port the object owns ([self.fd]) is
    threaded through a state-and-exception monad [M].

    Diagnostic printing under [self.debug] goes to stderr only and changes
    neither the port nor any returned value; it is left out. *)

From Stdlib Require Import ZArith List Bool String Ascii Lia.
Import ListNotations.
Local Open Scope Z_scope.

(** ** Python values *)

Module Py.

(** The exceptions the modelled code can raise. *)
Inductive exn : Set :=
| AssertionError
| TypeError
| IndexError
| OverflowError.

Inductive result (A : Type) : Type :=
| Return (a : A)
| Raise (e : exn).
Arguments Return {A} a.
Arguments Raise {A} e.

Definition rbind {A B} (r : result A) (k : A -> result B) : result B :=
  match r with
  | Return a => k a
  | Raise e => Raise e
  end.

(** [len(x)] on a list. *)
Definition len {A} (l : list A) : Z := Z.of_nat (List.length l).

(** [len(data)] where [data] may be [None]: [len(None)] is a [TypeError]. *)
Definition len_opt {A} (data : option (list A)) : result Z :=
  match data with
  | None => Raise TypeError
  | Some d => Return (len d)
  end.

(** [x is None]. *)
Definition is_None {A} (x : option A) : bool :=
  match x with
  | None => true
  | Some _ => false
  end.

(** [l[i]]: a negative index counts from the end, an index out of range
    raises [IndexError]. *)
Definition index {A} (l : list A) (i : Z) : result A :=
  let j := if i <? 0 then i + len l else i in
  if (j <? 0) || (len l <=? j) then Raise IndexError
  else match nth_error l (Z.to_nat j) with
       | Some x => Return x
       | None => Raise IndexError
       end.

(** [l[a:b]] for non-negative constant bounds (never raises). *)
Definition slice {A} (l : list A) (a b : nat) : list A :=
  firstn (b - a) (skipn a l).

(** [range(a, b)]. *)
Definition range (a b : Z) : list Z :=
  map (fun k => a + Z.of_nat k) (seq 0 (Z.to_nat (b - a))).

(** [for i in xs: acc = body(i, acc)], where the body may raise. *)
Fixpoint for_in {A S} (xs : list A) (body : A -> S -> result S) (acc : S)
  : result S :=
  match xs with
  | [] => Return acc
  | x :: xs' => rbind (body x acc) (for_in xs' body)
  end.

(** [chr(c)] for a code point below 256, as a one-character string. *)
Definition chr (c : Z) : string :=
  String (ascii_of_N (Z.to_N c)) EmptyString.

(** [''.join(parts)]. *)
Definition join (parts : list string) : string :=
  fold_right String.append EmptyString parts.

(** [a == b] on lists of ints. *)
Fixpoint list_eqb (a b : list Z) : bool :=
  match a, b with
  | [], [] => true
  | x :: a', y :: b' => (x =? y) && list_eqb a' b'
  | _, _ => false
  end.

(** [r == l] where [r] may be [None]: [None == [..]] is [False]. *)
Definition opt_list_eqb (r : option (list Z)) (l : list Z) : bool :=
  match r with
  | None => false
  | Some rc => list_eqb rc l
  end.

Inductive byteorder : Set := little | big.

(** The [length] base-256 digits of [v], least significant first. *)
Fixpoint le_digits (length : nat) (v : Z) : list Z :=
  match length with
  | O => []
  | S k => v mod 256 :: le_digits k (v / 256)
  end.

(** [v.to_bytes(length, byteorder)] (unsigned): [OverflowError] when [v]
    is negative or does not fit in [length] bytes. *)
Definition to_bytes (v : Z) (length : nat) (order : byteorder)
  : result (list Z) :=
  if (v <? 0) || (256 ^ Z.of_nat length <=? v) then Raise OverflowError
  else Return match order with
              | little => le_digits length v
              | big => rev (le_digits length v)
              end.

End Py.

(** ** The serial port ([self.fd]) and the monad of the client's methods *)

Module Serial.
Import Py.

(** What the client did to the outside world, in order. *)
Inductive event : Type :=
| EvWrite (bs : list Z)
| EvRead (n : nat) (got : list Z)
| EvSleep (ms : Z)
| EvFlush.

(** [rx]: the bytes the board delivers, in order, not yet read by the
    client; [tx]: every byte handed to the port so far; [log]: the
    calls made, oldest first. *)
Record port : Type := mkPort {
  rx : list Z;
  tx : list Z;
  log : list event
}.

Definition M (A : Type) : Type := port -> result A * port.

Definition ret {A} (a : A) : M A := fun p => (Return a, p).

Definition raise {A} (e : exn) : M A := fun p => (Raise e, p).

Definition bind {A B} (m : M A) (k : A -> M B) : M B :=
  fun p =>
    match m p with
    | (Return a, p') => k a p'
    | (Raise e, p') => (Raise e, p')
    end.

(** A computation that may raise but does not touch the port. *)
Definition lift {A} (r : result A) : M A := fun p => (r, p).

(** [fd.write(bs)]. *)
Definition write (bs : list Z) : M unit :=
  fun p => (Return tt,
            {| rx := rx p; tx := tx p ++ bs; log := log p ++ [EvWrite bs] |}).

(** [fd.read(n)]: blocks until [n] bytes have arrived or the port's
    timeout expires, and returns what arrived: the first [n] bytes of
    [rx], or all of [rx] when fewer are left (a short read). *)
Definition read (n : nat) : M (list Z) :=
  fun p => (Return (firstn n (rx p)),
            {| rx := skipn n (rx p); tx := tx p;
               log := log p ++ [EvRead n (firstn n (rx p))] |}).

(** [fd.flush()]: pyserial's [Serial.flush] waits until all written data
    has been transmitted.  It does not touch received bytes (discarding
    those is [reset_input_buffer]). *)
Definition flush : M unit :=
  fun p => (Return tt,
            {| rx := rx p; tx := tx p; log := log p ++ [EvFlush] |}).

(** [time.sleep(s)], with the duration kept in milliseconds. *)
Definition time_sleep (ms : Z) : M unit :=
  fun p => (Return tt,
            {| rx := rx p; tx := tx p; log := log p ++ [EvSleep ms] |}).

(** [assert b]; the script runs under the plain interpreter, where
    assertions are checked. *)
Definition assert_ (b : bool) : M unit :=
  if b then ret tt else raise AssertionError.

End Serial.

Declare Scope py_scope.
Delimit Scope py_scope with py.
Notation "x <- m ;; k" := (Serial.bind m (fun x => k))
  (at level 61, m at next level, right associativity) : py_scope.
Notation "m ;; k" := (Serial.bind m (fun _ => k))
  (at level 61, right associativity) : py_scope.

(** ** class Arduino8088Client *)

Module Arduino8088Client.
Import Py Serial.
Local Open Scope py_scope.

(** [class Command(Enum)]. *)
Inductive Command : Set :=
| CmdNone
| CmdVersion
| CmdReset
| CmdLoad
| CmdCycle
| CmdReadAddress
| CmdReadStatus
| CmdRead8288Command
| CmdRead8288Control
| CmdReadDataBus
| CmdWriteDataBus
| CmdFinalize
| CmdBeginStore
| CmdStore
| CmdQueueLen
| CmdQueueBytes
| CmdWritePin
| CmdReadPin
| CmdGetProgramState
| CmdLastError
| CmdGetCycleStatus
| CmdInvalid.

(** [command.value]: (opcode, outbound payload length). *)
Definition value (command : Command) : Z * Z :=
  match command with
  | CmdNone => (0x00, 0)
  | CmdVersion => (0x01, 0)
  | CmdReset => (0x02, 0)
  | CmdLoad => (0x03, 28)
  | CmdCycle => (0x04, 0)
  | CmdReadAddress => (0x05, 0)
  | CmdReadStatus => (0x06, 0)
  | CmdRead8288Command => (0x07, 0)
  | CmdRead8288Control => (0x08, 0)
  | CmdReadDataBus => (0x09, 0)
  | CmdWriteDataBus => (0x0A, 1)
  | CmdFinalize => (0x0B, 0)
  | CmdBeginStore => (0x0C, 0)
  | CmdStore => (0x0D, 0)
  | CmdQueueLen => (0x0E, 0)
  | CmdQueueBytes => (0x0F, 0)
  | CmdWritePin => (0x10, 2)
  | CmdReadPin => (0x11, 1)
  | CmdGetProgramState => (0x12, 0)
  | CmdLastError => (0x13, 0)
  | CmdGetCycleStatus => (0x14, 0)
  | CmdInvalid => (0x15, 0)
  end.

(** [list(Command)]: the members in definition order. *)
Definition members : list Command :=
  [ CmdNone; CmdVersion; CmdReset; CmdLoad; CmdCycle; CmdReadAddress;
    CmdReadStatus; CmdRead8288Command; CmdRead8288Control; CmdReadDataBus;
    CmdWriteDataBus; CmdFinalize; CmdBeginStore; CmdStore; CmdQueueLen;
    CmdQueueBytes; CmdWritePin; CmdReadPin; CmdGetProgramState;
    CmdLastError; CmdGetCycleStatus; CmdInvalid ].

Definition _send_command (command : Command) (data : option (list Z))
  : M bool :=
  opcode <- lift (to_bytes (fst (value command)) 1 big) ;;
  write opcode ;;
  ok <- (if is_None data && (snd (value command) =? 0) then ret true
         else n <- lift (len_opt data) ;; ret (n =? snd (value command))) ;;
  assert_ ok ;;
  match data with
  | Some d => write d
  | None => ret tt
  end ;;
  ret true.

Definition _receive_n (n : nat) : M (option (list Z)) :=
  rc <- read n ;;
  st <- lift (index rc (-1)) ;;
  if st =? 0x01 then ret (Some rc)
  else
    st <- lift (index rc (-1)) ;;
    if st =? 0x00 then ret None
    else
      time_sleep 110 ;;
      flush ;;
      ret None.

Definition cmd_version : M (option (string * Z)) :=
  sent <- _send_command CmdVersion None ;;
  if Bool.eqb sent false then ret None
  else
    reply <- _receive_n 9 ;;
    match reply with
    | None => ret None
    | Some reply =>
        let name := join (map chr (slice reply 0 7)) in
        version <- lift (index reply 7) ;;
        ret (Some (name, version))
    end.

Definition cmd_reset : M (option bool) :=
  sent <- _send_command CmdReset None ;;
  if Bool.eqb sent false then ret None
  else
    rc <- _receive_n 1 ;;
    ret (Some (opt_list_eqb rc [0x01])).

(** [out += v.to_bytes(2, 'little')]. *)
Definition append_to_bytes (out : list Z) (v : Z) : M (list Z) :=
  b <- lift (to_bytes v 2 little) ;;
  ret (out ++ b).

Definition cmd_load (AX BX CX DX SS SP FLAGS IP CS DS ES BP SI DI : Z)
  : M (option bool) :=
  out <- lift (to_bytes AX 2 little) ;;
  out <- append_to_bytes out BX ;;
  out <- append_to_bytes out CX ;;
  out <- append_to_bytes out DX ;;
  out <- append_to_bytes out SS ;;
  out <- append_to_bytes out SP ;;
  out <- append_to_bytes out FLAGS ;;
  out <- append_to_bytes out IP ;;
  out <- append_to_bytes out CS ;;
  out <- append_to_bytes out DS ;;
  out <- append_to_bytes out ES ;;
  out <- append_to_bytes out BP ;;
  out <- append_to_bytes out SI ;;
  out <- append_to_bytes out DI ;;
  assert_ (len out =? 28) ;;
  sent <- _send_command CmdLoad (Some out) ;;
  if Bool.eqb sent false then ret None
  else
    rc <- _receive_n 1 ;;
    ret (Some (opt_list_eqb rc [0x01])).

Definition cmd_cycle : M (option bool) :=
  sent <- _send_command CmdCycle None ;;
  if Bool.eqb sent false then ret None
  else
    rc <- _receive_n 1 ;;
    ret (Some (opt_list_eqb rc [0x01])).

Definition cmd_read_address : M (option Z) :=
  sent <- _send_command CmdReadAddress None ;;
  if Bool.eqb sent false then ret None
  else
    rc <- _receive_n 4 ;;
    match rc with
    | None => ret None
    | Some rc =>
        b0 <- lift (index rc 0) ;;
        b1 <- lift (index rc 1) ;;
        b2 <- lift (index rc 2) ;;
        ret (Some (Z.lor (Z.lor b0 (Z.shiftl b1 8)) (Z.shiftl b2 16)))
    end.

Definition cmd_read_status : M (option Z) :=
  sent <- _send_command CmdReadStatus None ;;
  if Bool.eqb sent false then ret None
  else
    rc <- _receive_n 2 ;;
    match rc with
    | None => ret None
    | Some rc => b0 <- lift (index rc 0) ;; ret (Some b0)
    end.

Definition cmd_read_8288_command : M (option Z) :=
  sent <- _send_command CmdRead8288Command None ;;
  if Bool.eqb sent false then ret None
  else
    rc <- _receive_n 2 ;;
    match rc with
    | None => ret None
    | Some rc => b0 <- lift (index rc 0) ;; ret (Some b0)
    end.

Definition cmd_read_8288_control : M (option Z) :=
  sent <- _send_command CmdRead8288Control None ;;
  if Bool.eqb sent false then ret None
  else
    rc <- _receive_n 2 ;;
    match rc with
    | None => ret None
    | Some rc => b0 <- lift (index rc 0) ;; ret (Some b0)
    end.

(** The loop body of [cmd_store]:
    [out.append((rc[i * 2 + 1] << 8) | rc[i * 2 + 0])]. *)
Definition store_step (rc : list Z) (i : Z) (out : list Z)
  : result (list Z) :=
  rbind (index rc (i * 2 + 1)) (fun hi =>
  rbind (index rc (i * 2 + 0)) (fun lo =>
  Return (out ++ [Z.lor (Z.shiftl hi 8) lo]))).

Definition cmd_store : M (option (list Z)) :=
  sent <- _send_command CmdStore None ;;
  if Bool.eqb sent false then ret None
  else
    rc <- _receive_n 29 ;;
    match rc with
    | None => ret None
    | Some rc =>
        out <- lift (for_in (range 0 14) (store_step rc) []) ;;
        ret (Some out)
    end.

End Arduino8088Client.

(** ** The decode contract of the specification *)

Module Spec.

(** The failures the specification names for a reply. *)
Inductive ProtocolError : Set :=
| TransportTimeoutError
| DeviceRejected
| OutOfSync.

Inductive outcome : Type :=
| Success (payload : list Z)
| Failure (e : ProtocolError).

(** Decode as the specification words it: fewer bytes than expected is a
    timeout; otherwise the byte at [expectedLength - 1] decides: [0x01]
    is success with the preceding bytes as payload, [0x00] is
    DeviceRejected, anything else is OutOfSync. *)
Definition Decode (rawReply : list Z) (expectedLength : nat) : outcome :=
  if (List.length rawReply <? expectedLength)%nat
  then Failure TransportTimeoutError
  else match nth_error rawReply (expectedLength - 1) with
       | Some 0x01 => Success (firstn (expectedLength - 1) rawReply)
       | Some 0x00 => Failure DeviceRejected
       | _ => Failure OutOfSync
       end.

End Spec.

(** ** Vocabulary of the statements *)

Module Wire.
Import Py Serial Arduino8088Client.

(** The opcode and the declared payload length of a command. *)
Definition opcode (command : Command) : Z := fst (value command).
Definition payload_length (command : Command) : Z := snd (value command).

(** The length of the payload handed to [_send_command]; [None] stands
    for no payload. *)
Definition data_length (data : option (list Z)) : Z :=
  match data with
  | None => 0
  | Some d => len d
  end.

(** The port once [bs] has been written. *)
Definition wrote (bs : list Z) (p : port) : port :=
  {| rx := rx p; tx := tx p ++ bs; log := log p ++ [EvWrite bs] |}.

(** The port once [fd.read(n)] has returned. *)
Definition after_read (n : nat) (p : port) : port :=
  {| rx := skipn n (rx p); tx := tx p;
     log := log p ++ [EvRead n (firstn n (rx p))] |}.

(** The port once the out-of-sync path has slept and flushed. *)
Definition after_resync (p : port) : port :=
  {| rx := rx p; tx := tx p;
     log := (log p ++ [EvSleep 110]) ++ [EvFlush] |}.

(** The two wire bytes of a 16-bit value, low byte first. *)
Definition le16 (v : Z) : list Z := [v mod 256; v / 256 mod 256].

(** Consecutive byte pairs read back as little-endian 16-bit values. *)
Fixpoint pairs_le (bs : list Z) : list Z :=
  match bs with
  | lo :: hi :: bs' => Z.lor (Z.shiftl hi 8) lo :: pairs_le bs'
  | _ => []
  end.

Definition uint16 (v : Z) : Prop := 0x0000 <= v <= 0xFFFF.

Definition byte_value (b : Z) : Prop := 0 <= b <= 255.

(** A call has read a reply when its log extends the initial one by
    events that include a read. *)
Definition read_a_reply (p p' : port) : Prop :=
  exists pre n got post, log p' = log p ++ pre ++ EvRead n got :: post.

End Wire.

(** ** The script at the end of the file *)

Module Script.
Import Py Serial Arduino8088Client.
Local Open Scope py_scope.
Local Open Scope string_scope.

(** A value handed to [print] after its label. *)
Inductive printed : Type :=
| PVersion (v : option (string * Z))
| PBool (v : option bool)
| PInt (v : option Z)
| PList (v : option (list Z)).

(** One statement [print(label, call)]: the call, then the line. *)
Definition statement : Type := string * M printed.

(** The nine statements that follow
    [a = Arduino8088Client('/dev/ttyUSB1', True)], in order. *)
Definition statements : list statement :=
  [ ("version", v <- cmd_version ;; ret (PVersion v));
    ("reset", v <- cmd_reset ;; ret (PBool v));
    ("load", v <- cmd_load 1 2 3 4 5 6 7 8 9 10 11 12 13 14 ;; ret (PBool v));
    ("cycle", v <- cmd_cycle ;; ret (PBool v));
    ("read address", v <- cmd_read_address ;; ret (PInt v));
    ("read status", v <- cmd_read_status ;; ret (PInt v));
    ("read 8288 command", v <- cmd_read_8288_command ;; ret (PInt v));
    ("read 8288 control", v <- cmd_read_8288_control ;; ret (PInt v));
    ("store", v <- cmd_store ;; ret (PList v)) ].

(** Statements run in order; [stdout] collects the printed lines; the
    first exception, which nothing catches, ends the script. *)
Fixpoint run (stmts : list statement) (stdout : list (string * printed))
         (p : port) : list (string * printed) * result unit * port :=
  match stmts with
  | [] => (stdout, Return tt, p)
  | (label, call) :: stmts' =>
      match call p with
      | (Return v, p') => run stmts' (stdout ++ [(label, v)]) p'
      | (Raise e, p') => (stdout, Raise e, p')
      end
  end.

(** The script, started on the freshly opened port. *)
Definition main (p : port) : list (string * printed) * result unit * port :=
  run statements [] p.

End Script.

(** ** Vocabulary for what the board sends back *)

Module Board.
Import Py Serial.

(** What a read of [n] bytes returns on port [p]. *)
Definition reply (n : nat) (p : port) : list Z := firstn n (rx p).

(** Something arrived and its last byte is not the success status. *)
Definition reply_refused (n : nat) (p : port) : Prop :=
  reply n p <> [] /\ last (reply n p) 0 <> 0x01.

(** All [n] bytes of the reply arrive. *)
Definition reply_complete (n : nat) (p : port) : Prop :=
  (n <= List.length (rx p))%nat.

End Board.

Import Py Serial Arduino8088Client Wire Board.
Local Open Scope py_scope.

(** ** Python primitives *)

Lemma index_nil {A} (i : Z) : index (@nil A) i = Raise IndexError.
Proof.
  unfold index, len; simpl.
  destruct (i <? 0) eqn:Hi.
  - rewrite Z.add_0_r, Hi. reflexivity.
  - rewrite Hi. destruct (0 <=? i) eqn:H0.
    + reflexivity.
    + apply Z.ltb_ge in Hi. apply Z.leb_gt in H0. lia.
Qed.

Lemma index_last (rc : list Z) :
  rc <> [] -> index rc (-1) = Return (last rc 0).
Proof.
  intros Hne.
  destruct (exists_last Hne) as [front [s ->]].
  rewrite last_last.
  unfold index, len. rewrite length_app. simpl List.length.
  change (-1 <? 0) with true. cbv iota.
  replace (-1 + Z.of_nat (List.length front + 1))
    with (Z.of_nat (List.length front)) by lia.
  assert (Hlt : (Z.of_nat (List.length front) <? 0) = false)
    by (apply Z.ltb_ge; lia).
  assert (Hle : (Z.of_nat (List.length front + 1)
                 <=? Z.of_nat (List.length front)) = false)
    by (apply Z.leb_gt; lia).
  rewrite Hlt, Hle, Nat2Z.id. simpl.
  rewrite nth_error_app2 by lia.
  rewrite Nat.sub_diag. reflexivity.
Qed.

Lemma to_bytes_opcode (command : Command) :
  to_bytes (fst (value command)) 1 big = Return [opcode command].
Proof. destruct command; reflexivity. Qed.

(** ** [_send_command] *)

Lemma send_command_None (command : Command) (p : port) :
  payload_length command = 0 ->
  _send_command command None p = (Return true, wrote [opcode command] p).
Proof.
  unfold payload_length. intros Hlen.
  unfold _send_command, bind, lift. rewrite to_bytes_opcode.
  simpl. rewrite Hlen. reflexivity.
Qed.

Lemma send_command_Some (command : Command) (d : list Z) (p : port) :
  len d = payload_length command ->
  _send_command command (Some d) p
  = (Return true, wrote d (wrote [opcode command] p)).
Proof.
  unfold payload_length. intros Hlen.
  unfold _send_command, bind, lift. rewrite to_bytes_opcode.
  simpl. rewrite Hlen, Z.eqb_refl. reflexivity.
Qed.

Lemma send_command_mismatch (command : Command) (data : option (list Z))
      (p : port) :
  data_length data <> payload_length command ->
  exists e, (e = AssertionError \/ e = TypeError)
            /\ _send_command command data p
               = (Raise e, wrote [opcode command] p).
Proof.
  unfold data_length, payload_length. intros Hne.
  unfold _send_command, bind, lift. rewrite to_bytes_opcode.
  destruct data as [d|]; simpl.
  - exists AssertionError. split; [now left|].
    apply Z.eqb_neq in Hne. rewrite Hne. reflexivity.
  - exists TypeError. split; [now right|].
    assert (H0 : (snd (value command) =? 0) = false)
      by (apply Z.eqb_neq; congruence).
    rewrite H0. reflexivity.
Qed.

Lemma send_command_cases (command : Command) (data : option (list Z))
      (p : port) :
  (exists p', _send_command command data p = (Return true, p')
              /\ exists ws, log p' = log p ++ ws)
  \/ (exists e p', _send_command command data p = (Raise e, p')).
Proof.
  destruct (Z.eq_dec (data_length data) (payload_length command)) as [He|Hne].
  - left. destruct data as [d|].
    + rewrite (send_command_Some _ _ _ He). eexists; split; [reflexivity|].
      simpl. rewrite <- app_assoc. eexists; reflexivity.
    + rewrite (send_command_None _ _ (eq_sym He)).
      eexists; split; [reflexivity|]. simpl. eexists; reflexivity.
  - right. destruct (send_command_mismatch command data p Hne) as [e [_ H]].
    eauto.
Qed.

(** ** [_receive_n] *)

Lemma receive_n_empty (n : nat) (p : port) :
  firstn n (rx p) = [] ->
  _receive_n n p = (Raise IndexError, after_read n p).
Proof.
  intros Hnil. unfold _receive_n, bind, read, lift, after_read.
  rewrite Hnil, index_nil. reflexivity.
Qed.

Lemma receive_n_nonempty (n : nat) (p : port) :
  firstn n (rx p) <> [] ->
  _receive_n n p
  = let rc := firstn n (rx p) in
    if last rc 0 =? 0x01 then (Return (Some rc), after_read n p)
    else if last rc 0 =? 0x00 then (Return None, after_read n p)
    else (Return None, after_resync (after_read n p)).
Proof.
  intros Hne. unfold _receive_n, bind, read, lift.
  rewrite (index_last _ Hne). cbv zeta.
  destruct (last (firstn n (rx p)) 0 =? 1); [reflexivity|].
  destruct (last (firstn n (rx p)) 0 =? 0); reflexivity.
Qed.

Lemma receive_n_log (n : nat) (p : port) :
  exists post,
    log (snd (_receive_n n p)) = log p ++ EvRead n (firstn n (rx p)) :: post.
Proof.
  destruct (firstn n (rx p)) as [|b rc] eqn:Hrc.
  - rewrite (receive_n_empty _ _ Hrc). simpl. rewrite Hrc.
    exists []. reflexivity.
  - assert (Hne : firstn n (rx p) <> []) by (rewrite Hrc; discriminate).
    rewrite (receive_n_nonempty _ _ Hne). cbv zeta. rewrite Hrc.
    destruct (last (b :: rc) 0 =? 1); [|destruct (last (b :: rc) 0 =? 0)];
      simpl; rewrite ?Hrc, <- ?app_assoc; eexists; reflexivity.
Qed.

(** ** Rejection of ill-sized payloads *)

(** C1 (the code departs from the claim).  The claim: a payload whose
    length differs from the declared one is rejected with no byte written,
    not even the opcode.  [_send_command] writes the opcode first and only
    then asserts the length: sending [CmdReset] (declared length 0) with a
    one-byte payload raises [AssertionError] with the opcode byte [0x02]
    already on the wire. *)
Theorem send_command_opcode_written_before_length_check :
  _send_command CmdReset (Some [0x00]) {| rx := []; tx := []; log := [] |}
  = (Raise AssertionError,
     {| rx := []; tx := [0x02]; log := [EvWrite [0x02]] |}).
Proof. reflexivity. Qed.

(** ** Decoding a reply *)

(** C2, as stated, fails: no reading of what [_receive_n] hands back can
    tell the specification's outcomes apart, because a reply ending in
    [0x00] and a reply ending in [0x7F] both come back as [None]. *)
Lemma receive_n_collapses_rejected_and_out_of_sync :
  ~ exists classify : result (option (list Z)) -> Spec.outcome,
      forall (n : nat) (p : port),
        (0 < n)%nat ->
        List.length (firstn n (rx p)) = n ->
        classify (fst (_receive_n n p)) = Spec.Decode (firstn n (rx p)) n.
Proof.
  intros [classify H].
  pose proof (H 1%nat (mkPort [0x00] [] []) Nat.lt_0_1 eq_refl) as Hrej.
  pose proof (H 1%nat (mkPort [0x7F] [] []) Nat.lt_0_1 eq_refl) as Hsync.
  vm_compute in Hrej, Hsync.
  rewrite Hrej in Hsync. discriminate Hsync.
Qed.

(** C2 (amended).  For every raw reply of the expected length [n >= 1],
    [_receive_n] dispatches on the final byte: [0x01] returns the whole
    reply, i.e. the payload followed by the status byte; [0x00] returns
    [None]; any other value also returns [None], after a sleep and a
    flush.  The two failures are the same value for the caller. *)
Theorem receive_n_dispatches_on_final_byte (n : nat) (p : port) :
  (0 < n)%nat ->
  List.length (firstn n (rx p)) = n ->
  let rawReply := firstn n (rx p) in
  let status := last rawReply 0 in
  (exists payload,
      rawReply = payload ++ [status] /\ List.length payload = (n - 1)%nat)
  /\ (status = 0x01 ->
      _receive_n n p = (Return (Some rawReply), after_read n p))
  /\ (status = 0x00 ->
      _receive_n n p = (Return None, after_read n p))
  /\ (status <> 0x01 -> status <> 0x00 ->
      _receive_n n p = (Return None, after_resync (after_read n p))).
Proof.
  intros Hn Hlen rawReply status.
  assert (Hne : firstn n (rx p) <> []).
  { intros Hnil. rewrite Hnil in Hlen. simpl in Hlen. lia. }
  pose proof (receive_n_nonempty n p Hne) as Hrun. cbv zeta in Hrun.
  fold rawReply in Hrun. fold status in Hrun.
  split; [|split; [|split]].
  - destruct (exists_last Hne) as [payload [s Hs]].
    exists payload. fold rawReply in Hs. subst status.
    rewrite Hs, last_last. split; [reflexivity|].
    assert (Hl : List.length rawReply = n) by exact Hlen.
    rewrite Hs, length_app in Hl. simpl in Hl. lia.
  - intros Hs. rewrite Hrun, Hs. reflexivity.
  - intros Hs. rewrite Hrun, Hs. reflexivity.
  - intros H1 H0. rewrite Hrun.
    apply Z.eqb_neq in H1. apply Z.eqb_neq in H0.
    rewrite H1, H0. reflexivity.
Qed.

Lemma receive_n_dispatches_on_final_byte_witness :
  ((0 < 4)%nat
   /\ List.length (firstn 4 (rx (mkPort [0x34; 0x12; 0x00; 0x01] [] []))) = 4%nat)
  /\ _receive_n 4 (mkPort [0x34; 0x12; 0x00; 0x01] [] [])
     = (Return (Some [0x34; 0x12; 0x00; 0x01]),
        after_read 4 (mkPort [0x34; 0x12; 0x00; 0x01] [] [])).
Proof.
  split; [split; [lia | reflexivity]|].
  refine (proj1 (proj2 (receive_n_dispatches_on_final_byte
                          4 (mkPort [0x34; 0x12; 0x00; 0x01] [] []) _ _)) _).
  - lia.
  - reflexivity.
  - reflexivity.
Defined.

(** ** Short reads *)

(** C8, as stated, fails: asked for two bytes when only [0x01] arrives,
    [_receive_n] does not fail; it returns the single byte as a successful
    reply, where the specification's decode reports a timeout. *)
Lemma receive_n_short_read_taken_as_reply :
  Nat.lt (List.length (firstn 2 (rx (mkPort [0x01] [] [])))) 2
  /\ fst (_receive_n 2 (mkPort [0x01] [] [])) = Return (Some [0x01])
  /\ Spec.Decode [0x01] 2 = Spec.Failure Spec.TransportTimeoutError.
Proof.
  split; [unfold Nat.lt; simpl; lia|]. split; reflexivity.
Qed.

(** C8 (amended).  For every expected length [n], when the transport
    yields fewer than [n] bytes but at least one, [_receive_n] reports no
    timeout: it takes the last byte received as the status byte.  [0x01]
    returns the short data as the reply, [0x00] returns [None], any other
    value sleeps, flushes and returns [None]. *)
Theorem receive_n_short_read_dispatches_on_last_byte (n : nat) (p : port) :
  (List.length (rx p) < n)%nat ->
  rx p <> [] ->
  let got := rx p in
  let status := last got 0 in
  firstn n (rx p) = got
  /\ (status = 0x01 -> _receive_n n p = (Return (Some got), after_read n p))
  /\ (status = 0x00 -> _receive_n n p = (Return None, after_read n p))
  /\ (status <> 0x01 -> status <> 0x00 ->
      _receive_n n p = (Return None, after_resync (after_read n p))).
Proof.
  intros Hshort Hne got status.
  assert (Hall : firstn n (rx p) = rx p) by (apply firstn_all2; lia).
  assert (Hne' : firstn n (rx p) <> []) by (rewrite Hall; exact Hne).
  pose proof (receive_n_nonempty n p Hne') as Hrun. cbv zeta in Hrun.
  rewrite Hall in Hrun. fold got in Hrun. fold status in Hrun.
  split; [exact Hall|]. split; [|split].
  - intros Hs. rewrite Hrun, Hs. reflexivity.
  - intros Hs. rewrite Hrun, Hs. reflexivity.
  - intros H1 H0. rewrite Hrun.
    apply Z.eqb_neq in H1. apply Z.eqb_neq in H0.
    rewrite H1, H0. reflexivity.
Qed.

Lemma receive_n_short_read_dispatches_on_last_byte_witness :
  (Nat.lt (List.length (rx (mkPort [0x41; 0x01] [] []))) 9
   /\ rx (mkPort [0x41; 0x01] [] []) <> [])
  /\ _receive_n 9 (mkPort [0x41; 0x01] [] [])
     = (Return (Some [0x41; 0x01]), after_read 9 (mkPort [0x41; 0x01] [] [])).
Proof.
  split; [split; [unfold Nat.lt; simpl; lia | discriminate]|].
  refine (proj1 (proj2 (receive_n_short_read_dispatches_on_last_byte
                          9 (mkPort [0x41; 0x01] [] []) _ _)) _).
  - simpl; lia.
  - discriminate.
  - reflexivity.
Defined.

(** C10.  When the transport returns zero bytes, [_receive_n] evaluates
    [rc[-1]] on the empty list and raises [IndexError]: the caller gets
    an exception, not a returned value of any kind. *)
Theorem receive_n_zero_bytes_raises_IndexError (n : nat) (p : port) :
  firstn n (rx p) = [] ->
  _receive_n n p = (Raise IndexError, after_read n p)
  /\ forall r, fst (_receive_n n p) <> Return r.
Proof.
  intros Hnil. rewrite (receive_n_empty n p Hnil).
  split; [reflexivity | discriminate].
Qed.

Lemma receive_n_zero_bytes_raises_IndexError_witness :
  firstn 1 (rx (mkPort [] [0x02] [EvWrite [0x02]])) = []
  /\ _receive_n 1 (mkPort [] [0x02] [EvWrite [0x02]])
     = (Raise IndexError, after_read 1 (mkPort [] [0x02] [EvWrite [0x02]])).
Proof.
  split; [reflexivity|].
  exact (proj1 (receive_n_zero_bytes_raises_IndexError
                  1 (mkPort [] [0x02] [EvWrite [0x02]]) eq_refl)).
Defined.

(** ** Resynchronisation *)

(** C7 (the code departs from the claim).  The claim: on an out-of-sync
    status byte the engine waits, then discards what is buffered on the
    input side, and returns the failure without retrying.  The code sleeps
    110 ms, returns [None] and writes nothing more, but the call it makes
    is [fd.flush()], which drains the output side: the bytes [0x55; 0xAA]
    that arrived behind the stray [0x7F] stay buffered, and the next read
    returns the stale [0x55]. *)
Theorem receive_n_out_of_sync_keeps_input_buffered :
  cmd_reset (mkPort [0x7F; 0x55; 0xAA] [] [])
  = (Return (Some false),
     mkPort [0x55; 0xAA] [0x02]
            [EvWrite [0x02]; EvRead 1 [0x7F]; EvSleep 110; EvFlush])
  /\ _receive_n 1 (snd (cmd_reset (mkPort [0x7F; 0x55; 0xAA] [] [])))
     = (Return None,
        mkPort [0xAA] [0x02]
               [EvWrite [0x02]; EvRead 1 [0x7F]; EvSleep 110; EvFlush;
                EvRead 1 [0x55]; EvSleep 110; EvFlush]).
Proof. split; reflexivity. Qed.

(** ** The guard on [_send_command]'s result *)

Lemma send_command_returns_True
      (command : Command) (data : option (list Z)) (p p' : port) (b : bool) :
  _send_command command data p = (Return b, p') -> b = true.
Proof.
  intros H.
  destruct (send_command_cases command data p)
    as [[p1 [Hs _]] | [e [p1 Hs]]]; rewrite Hs in H; congruence.
Qed.

Lemma guard_is_dead {A} (command : Command) (data : option (list Z))
      (dead live : M A) (p : port) :
  (sent <- _send_command command data ;;
   if Bool.eqb sent false then dead else live) p
  = (_send_command command data ;; live) p.
Proof.
  unfold bind.
  destruct (_send_command command data p) as [[b|e] p1] eqn:Hs;
    [|reflexivity].
  rewrite (send_command_returns_True _ _ _ _ _ Hs). reflexivity.
Qed.

Lemma read_a_reply_after_send (p p1 : port) (n : nat) (ws : list event) :
  log p1 = log p ++ ws ->
  read_a_reply p (snd (_receive_n n p1)).
Proof.
  intros Hws. destruct (receive_n_log n p1) as [post Hlog].
  exists ws, n, (firstn n (rx p1)), post.
  rewrite Hlog, Hws, <- app_assoc. reflexivity.
Qed.

(** Every typed operation has the shape: send, guard, receive, then a
    parse that leaves the port alone. *)
Ltac after_guard p :=
  rewrite guard_is_dead; unfold bind at 1;
  match goal with
  | |- context [_send_command ?c ?d p] =>
      destruct (send_command_cases c d p)
        as [[?p1 [?Hs [?ws ?Hws]]] | [?e [?p1 ?Hs]]];
      rewrite Hs; [|intros; discriminate]
  end.

Ltac after_receive n :=
  unfold bind at 1;
  match goal with
  | Hws : log ?p1 = log ?p ++ ?ws |- _ =>
      pose proof (read_a_reply_after_send p p1 n ws Hws) as Hread;
      destruct (_receive_n n p1) as [[[?rc|]|?e] ?p2];
      simpl in Hread; unfold bind, lift, ret;
      try (intros; discriminate)
  end.

Ltac pure_tail :=
  repeat match goal with
         | |- context [match ?r with Return _ => _ | Raise _ => _ end] =>
             destruct r; try (intros; discriminate)
         end;
  intros Heq; inversion Heq; subst; assumption.

Lemma cmd_version_reads (p p' : port) r :
  cmd_version p = (Return r, p') -> read_a_reply p p'.
Proof.
  unfold cmd_version. after_guard p. after_receive 9%nat; pure_tail.
Qed.

Lemma cmd_reset_reads (p p' : port) r :
  cmd_reset p = (Return r, p') -> read_a_reply p p'.
Proof.
  unfold cmd_reset. after_guard p. after_receive 1%nat; pure_tail.
Qed.

Lemma cmd_cycle_reads (p p' : port) r :
  cmd_cycle p = (Return r, p') -> read_a_reply p p'.
Proof.
  unfold cmd_cycle. after_guard p. after_receive 1%nat; pure_tail.
Qed.

Lemma cmd_read_address_reads (p p' : port) r :
  cmd_read_address p = (Return r, p') -> read_a_reply p p'.
Proof.
  unfold cmd_read_address. after_guard p. after_receive 4%nat; pure_tail.
Qed.

Lemma cmd_read_status_reads (p p' : port) r :
  cmd_read_status p = (Return r, p') -> read_a_reply p p'.
Proof.
  unfold cmd_read_status. after_guard p. after_receive 2%nat; pure_tail.
Qed.

Lemma cmd_read_8288_command_reads (p p' : port) r :
  cmd_read_8288_command p = (Return r, p') -> read_a_reply p p'.
Proof.
  unfold cmd_read_8288_command. after_guard p. after_receive 2%nat; pure_tail.
Qed.

Lemma cmd_read_8288_control_reads (p p' : port) r :
  cmd_read_8288_control p = (Return r, p') -> read_a_reply p p'.
Proof.
  unfold cmd_read_8288_control. after_guard p. after_receive 2%nat; pure_tail.
Qed.

Lemma cmd_store_reads (p p' : port) r :
  cmd_store p = (Return r, p') -> read_a_reply p p'.
Proof.
  unfold cmd_store. after_guard p. after_receive 29%nat; pure_tail.
Qed.

Lemma cmd_load_reads (AX BX CX DX SS SP FLAGS IP CS DS ES BP SI DI : Z)
      (p p' : port) r :
  cmd_load AX BX CX DX SS SP FLAGS IP CS DS ES BP SI DI p = (Return r, p') ->
  read_a_reply p p'.
Proof.
  unfold cmd_load, append_to_bytes.
  unfold bind at 1, lift at 1.
  destruct (to_bytes AX 2 little) as [out|]; [|intros; discriminate].
  do 13 (unfold bind at 1; unfold bind at 1, lift at 1;
         match goal with
         | |- context [to_bytes ?v 2 little] =>
             destruct (to_bytes v 2 little); [|intros; discriminate]
         end; unfold ret at 1).
  unfold bind at 1.
  match goal with
  | |- context [assert_ ?b] => destruct b
  end; [|intros; discriminate].
  unfold assert_, ret at 1.
  after_guard p. after_receive 1%nat; pure_tail.
Qed.

(** C9.  [_send_command] returns [True] whenever it returns at all, so
    the comparison with [False] that guards every typed operation is never
    true: the guarded [return None] can be dropped without changing any
    operation, and an operation that returns has always gone on to read a
    reply. *)
Theorem send_command_guard_is_unreachable :
  (forall command data p b p',
      _send_command command data p = (Return b, p') ->
      b = true /\ Bool.eqb b false = false)
  /\ (forall A command data (dead live : M A) p,
         (sent <- _send_command command data ;;
          if Bool.eqb sent false then dead else live) p
         = (_send_command command data ;; live) p)
  /\ (forall p r p', cmd_version p = (Return r, p') -> read_a_reply p p')
  /\ (forall p r p', cmd_reset p = (Return r, p') -> read_a_reply p p')
  /\ (forall AX BX CX DX SS SP FLAGS IP CS DS ES BP SI DI p r p',
         cmd_load AX BX CX DX SS SP FLAGS IP CS DS ES BP SI DI p
         = (Return r, p') -> read_a_reply p p')
  /\ (forall p r p', cmd_cycle p = (Return r, p') -> read_a_reply p p')
  /\ (forall p r p',
         cmd_read_address p = (Return r, p') -> read_a_reply p p')
  /\ (forall p r p',
         cmd_read_status p = (Return r, p') -> read_a_reply p p')
  /\ (forall p r p',
         cmd_read_8288_command p = (Return r, p') -> read_a_reply p p')
  /\ (forall p r p',
         cmd_read_8288_control p = (Return r, p') -> read_a_reply p p')
  /\ (forall p r p', cmd_store p = (Return r, p') -> read_a_reply p p').
Proof.
  repeat split.
  - eapply send_command_returns_True; eassumption.
  - erewrite (send_command_returns_True _ _ _ _ b) by eassumption.
    reflexivity.
  - intros. apply guard_is_dead.
  - intros p r p'. apply cmd_version_reads.
  - intros p r p'. apply cmd_reset_reads.
  - intros until p'. apply cmd_load_reads.
  - intros p r p'. apply cmd_cycle_reads.
  - intros p r p'. apply cmd_read_address_reads.
  - intros p r p'. apply cmd_read_status_reads.
  - intros p r p'. apply cmd_read_8288_command_reads.
  - intros p r p'. apply cmd_read_8288_control_reads.
  - intros p r p'. apply cmd_store_reads.
Qed.

Lemma send_command_guard_is_unreachable_witness :
  _send_command CmdReset None (mkPort [0x01] [] [])
  = (Return true, mkPort [0x01] [0x02] [EvWrite [0x02]])
  /\ (true = true /\ Bool.eqb true false = false).
Proof.
  split; [reflexivity|].
  exact (proj1 send_command_guard_is_unreachable
               CmdReset None (mkPort [0x01] [] []) true
               (mkPort [0x01] [0x02] [EvWrite [0x02]]) eq_refl).
Defined.

(** ** Typed replies *)

(** C5.  On the reply bytes 41 72 64 75 69 38 38 07 01, [cmd_version]
    returns the name "Ardui88" (the first seven bytes as characters) and
    the version number 7 (the eighth byte). *)
Theorem cmd_version_Ardui88 :
  forall (rest tx0 : list Z) (log0 : list event),
    fst (cmd_version
           (mkPort ([0x41; 0x72; 0x64; 0x75; 0x69; 0x38; 0x38; 0x07; 0x01]
                      ++ rest) tx0 log0))
    = Return (Some ("Ardui88"%string, 7)).
Proof. intros rest tx0 log0. reflexivity. Qed.

Lemma land_low_shiftl (lo hi k : Z) :
  0 <= k -> 0 <= lo < 2 ^ k -> Z.land lo (Z.shiftl hi k) = 0.
Proof.
  intros Hk Hlo. apply Z.bits_inj'. intros n Hn.
  rewrite Z.land_spec, Z.bits_0.
  destruct (Z.lt_ge_cases n k) as [Hlt|Hge].
  - rewrite Z.shiftl_spec_low by assumption. apply andb_false_r.
  - rewrite <- (Z.mod_small lo (2 ^ k)) by assumption.
    rewrite Z.mod_pow2_bits_high by lia. reflexivity.
Qed.

Lemma lor_low_shiftl (lo hi k : Z) :
  0 <= k -> 0 <= lo < 2 ^ k -> Z.lor lo (Z.shiftl hi k) = lo + hi * 2 ^ k.
Proof.
  intros Hk Hlo.
  pose proof (Z.add_lor_land lo (Z.shiftl hi k)) as Hsum.
  rewrite (land_low_shiftl lo hi k Hk Hlo) in Hsum.
  rewrite Z.shiftl_mul_pow2 in * by assumption. lia.
Qed.

Lemma address_value (b0 b1 b2 : Z) :
  byte_value b0 -> byte_value b1 -> byte_value b2 ->
  Z.lor (Z.lor b0 (Z.shiftl b1 8)) (Z.shiftl b2 16)
  = b0 + 256 * b1 + 65536 * b2.
Proof.
  unfold byte_value. intros H0 H1 H2.
  rewrite (lor_low_shiftl b0 b1 8) by lia.
  rewrite (lor_low_shiftl (b0 + b1 * 2 ^ 8) b2 16) by lia.
  lia.
Qed.

(** C6.  [cmd_read_address] parses the three payload bytes of its reply as
    byte0 | byte1<<8 | byte2<<16, which for byte values is the unsigned
    24-bit number byte0 + 256*byte1 + 65536*byte2; on the reply
    34 12 00 01 it returns 0x001234. *)
Theorem cmd_read_address_parses_24_bit_address :
  (forall (b0 b1 b2 : Z) (rest tx0 : list Z) (log0 : list event),
      fst (cmd_read_address (mkPort (b0 :: b1 :: b2 :: 0x01 :: rest) tx0 log0))
      = Return (Some (Z.lor (Z.lor b0 (Z.shiftl b1 8)) (Z.shiftl b2 16))))
  /\ (forall b0 b1 b2 : Z,
         byte_value b0 -> byte_value b1 -> byte_value b2 ->
         Z.lor (Z.lor b0 (Z.shiftl b1 8)) (Z.shiftl b2 16)
         = b0 + 256 * b1 + 65536 * b2
         /\ 0 <= Z.lor (Z.lor b0 (Z.shiftl b1 8)) (Z.shiftl b2 16) < 2 ^ 24)
  /\ (forall (rest tx0 : list Z) (log0 : list event),
         fst (cmd_read_address
                (mkPort (0x34 :: 0x12 :: 0x00 :: 0x01 :: rest) tx0 log0))
         = Return (Some 0x001234)).
Proof.
  split; [|split].
  - intros. reflexivity.
  - intros b0 b1 b2 H0 H1 H2.
    rewrite (address_value b0 b1 b2 H0 H1 H2).
    unfold byte_value in *. split; [reflexivity | lia].
  - intros. reflexivity.
Qed.

Lemma cmd_read_address_parses_24_bit_address_witness :
  (byte_value 0x34 /\ byte_value 0x12 /\ byte_value 0x00)
  /\ Z.lor (Z.lor 0x34 (Z.shiftl 0x12 8)) (Z.shiftl 0x00 16)
     = 0x34 + 256 * 0x12 + 65536 * 0x00
  /\ 0 <= Z.lor (Z.lor 0x34 (Z.shiftl 0x12 8)) (Z.shiftl 0x00 16) < 2 ^ 24.
Proof.
  split; [unfold byte_value; lia|].
  apply (proj1 (proj2 cmd_read_address_parses_24_bit_address) 0x34 0x12 0x00);
    unfold byte_value; lia.
Defined.

(** ** The command table *)

Lemma members_complete (command : Command) : In command members.
Proof. destruct command; simpl; tauto. Qed.

Lemma members_NoDup : NoDup members.
Proof.
  unfold members.
  repeat (constructor; [simpl; intuition discriminate|]).
  constructor.
Qed.

(** C4, as stated, fails: the enumeration has no duplicate-free listing of
    21 commands; it has 22 members. *)
Lemma command_table_has_not_21_members :
  ~ exists l : list Command,
      NoDup l /\ (forall command, In command l) /\ List.length l = 21%nat.
Proof.
  intros [l [Hnd [Hall Hlen]]].
  assert (Hle : (List.length members <= List.length l)%nat).
  { apply NoDup_incl_length; [exact members_NoDup|].
    intros c _. apply Hall. }
  rewrite Hlen in Hle. simpl in Hle. lia.
Qed.

(** C4 (amended).  The command table is a closed static enumeration of
    exactly 22 commands (among them [CmdNone] and the [CmdInvalid]
    sentinel); their opcodes are, in order, exactly 0x00 .. 0x15, hence
    unique, and every declared payload length is 0, 1, 2 or 28. *)
Theorem command_table_has_22_members :
  List.length members = 22%nat
  /\ NoDup members
  /\ (forall command, In command members)
  /\ map opcode members = range 0x00 0x16
  /\ NoDup (map opcode members)
  /\ (forall command, In (payload_length command) [0; 1; 2; 28]).
Proof.
  split; [reflexivity|].
  split; [exact members_NoDup|].
  split; [exact members_complete|].
  split; [reflexivity|].
  split.
  - vm_compute.
    repeat (constructor; [simpl; intuition discriminate|]).
    constructor.
  - intros command. destruct command; simpl; tauto.
Qed.

(** ** Register snapshots *)

Lemma to_bytes_le16 (v : Z) :
  uint16 v -> to_bytes v 2 little = Return (le16 v).
Proof.
  unfold uint16, to_bytes. intros Hv.
  change (256 ^ Z.of_nat 2) with 65536.
  assert (H0 : (v <? 0) = false) by (apply Z.ltb_ge; lia).
  assert (H1 : (65536 <=? v) = false) by (apply Z.leb_gt; lia).
  rewrite H0, H1. reflexivity.
Qed.

Lemma le16_read_back (v : Z) :
  uint16 v -> Z.lor (Z.shiftl (v / 256 mod 256) 8) (v mod 256) = v.
Proof.
  unfold uint16. intros Hv.
  rewrite Z.lor_comm.
  rewrite lor_low_shiftl by (try lia; apply Z.mod_pos_bound; lia).
  rewrite (Z.mod_small (v / 256) 256)
    by (split; [apply Z.div_pos; lia | apply Z.div_lt_upper_bound; lia]).
  change (2 ^ 8) with 256.
  pose proof (Z.div_mod v 256). lia.
Qed.

Lemma pairs_le_flat_map (regs : list Z) :
  Forall uint16 regs -> pairs_le (flat_map le16 regs) = regs.
Proof.
  induction 1 as [|v regs Hv _ IH]; [reflexivity|].
  change (flat_map le16 (v :: regs))
    with (v mod 256 :: v / 256 mod 256 :: flat_map le16 regs).
  change (pairs_le (v mod 256 :: v / 256 mod 256 :: flat_map le16 regs))
    with (Z.lor (Z.shiftl (v / 256 mod 256) 8) (v mod 256)
            :: pairs_le (flat_map le16 regs)).
  rewrite IH, (le16_read_back v Hv). reflexivity.
Qed.

Lemma cmd_store_decodes (out rest tx0 : list Z) (log0 : list event) :
  List.length out = 28%nat ->
  fst (cmd_store (mkPort (out ++ 0x01 :: rest) tx0 log0))
  = Return (Some (pairs_le out)).
Proof.
  intros Hlen.
  do 28 (destruct out as [|? out]; [discriminate Hlen|]).
  destruct out; [|discriminate Hlen].
  reflexivity.
Qed.

Lemma cmd_load_sends (AX BX CX DX SS SP FLAGS IP CS DS ES BP SI DI : Z)
      (p : port) :
  Forall uint16 [AX; BX; CX; DX; SS; SP; FLAGS; IP; CS; DS; ES; BP; SI; DI] ->
  cmd_load AX BX CX DX SS SP FLAGS IP CS DS ES BP SI DI p
  = (sent <- _send_command CmdLoad
       (Some (flat_map le16
                [AX; BX; CX; DX; SS; SP; FLAGS; IP; CS; DS; ES; BP; SI; DI])) ;;
     if Bool.eqb sent false then ret None
     else rc <- _receive_n 1 ;; ret (Some (opt_list_eqb rc [0x01]))) p.
Proof.
  intros Hregs.
  repeat match goal with
         | H : Forall _ (_ :: _) |- _ => inversion H; subst; clear H
         end.
  unfold cmd_load, append_to_bytes.
  rewrite !to_bytes_le16 by assumption.
  reflexivity.
Qed.

Lemma cmd_load_tx (d : list Z) (p : port) :
  len d = 28 ->
  tx (snd ((sent <- _send_command CmdLoad (Some d) ;;
            if Bool.eqb sent false then ret None
            else rc <- _receive_n 1 ;; ret (Some (opt_list_eqb rc [0x01]))) p))
  = tx p ++ 0x03 :: d.
Proof.
  intros Hlen. unfold bind at 1.
  rewrite (send_command_Some CmdLoad d p Hlen). cbv iota beta.
  change (Bool.eqb true false) with false. cbv iota.
  unfold bind, ret.
  set (q := wrote d (wrote [opcode CmdLoad] p)).
  assert (Hq : tx q = tx p ++ 0x03 :: d).
  { subst q. simpl. rewrite <- app_assoc. reflexivity. }
  destruct (firstn 1 (rx q)) as [|b rc] eqn:Hrc.
  - rewrite (receive_n_empty 1 q Hrc). exact Hq.
  - assert (Hne : firstn 1 (rx q) <> []) by (rewrite Hrc; discriminate).
    rewrite (receive_n_nonempty 1 q Hne). cbv zeta.
    destruct (last (firstn 1 (rx q)) 0 =? 1);
      [|destruct (last (firstn 1 (rx q)) 0 =? 0)]; exact Hq.
Qed.

(** C3.  For all fourteen 16-bit values, [cmd_load] puts on the wire the
    opcode followed by 28 payload bytes, each value as two bytes low byte
    first, in the order AX, BX, CX, DX, SS, SP, FLAGS, IP, CS, DS, ES, BP,
    SI, DI; and [cmd_store], given those 28 bytes as the reply payload,
    returns the fourteen original values. *)
Theorem load_store_round_trip
        (AX BX CX DX SS SP FLAGS IP CS DS ES BP SI DI : Z) :
  Forall uint16 [AX; BX; CX; DX; SS; SP; FLAGS; IP; CS; DS; ES; BP; SI; DI] ->
  exists out : list Z,
    out = le16 AX ++ le16 BX ++ le16 CX ++ le16 DX ++ le16 SS ++ le16 SP
          ++ le16 FLAGS ++ le16 IP ++ le16 CS ++ le16 DS ++ le16 ES
          ++ le16 BP ++ le16 SI ++ le16 DI
    /\ List.length out = 28%nat
    /\ (forall p : port,
           tx (snd (cmd_load AX BX CX DX SS SP FLAGS IP CS DS ES BP SI DI p))
           = tx p ++ 0x03 :: out)
    /\ (forall (rest tx0 : list Z) (log0 : list event),
           fst (cmd_store (mkPort (out ++ 0x01 :: rest) tx0 log0))
           = Return (Some [AX; BX; CX; DX; SS; SP; FLAGS; IP; CS; DS; ES;
                           BP; SI; DI])).
Proof.
  intros Hregs.
  exists (flat_map le16
            [AX; BX; CX; DX; SS; SP; FLAGS; IP; CS; DS; ES; BP; SI; DI]).
  split; [reflexivity|]. split; [reflexivity|]. split.
  - intros p. rewrite (cmd_load_sends _ _ _ _ _ _ _ _ _ _ _ _ _ _ p Hregs).
    apply cmd_load_tx. reflexivity.
  - intros rest tx0 log0.
    rewrite cmd_store_decodes by reflexivity.
    rewrite (pairs_le_flat_map _ Hregs). reflexivity.
Qed.

Lemma load_store_round_trip_witness :
  Forall uint16 [0x0000; 0xFFFF; 0x1234; 0x00FF; 0xFF00; 0x8000; 0xF202;
                 0xFFF0; 0xF000; 0x0001; 0x0100; 0x7FFF; 0xABCD; 0x00A5]
  /\ exists out : list Z,
      out = le16 0x0000 ++ le16 0xFFFF ++ le16 0x1234 ++ le16 0x00FF
            ++ le16 0xFF00 ++ le16 0x8000 ++ le16 0xF202 ++ le16 0xFFF0
            ++ le16 0xF000 ++ le16 0x0001 ++ le16 0x0100 ++ le16 0x7FFF
            ++ le16 0xABCD ++ le16 0x00A5
      /\ List.length out = 28%nat
      /\ (forall p : port,
             tx (snd (cmd_load 0x0000 0xFFFF 0x1234 0x00FF 0xFF00 0x8000
                               0xF202 0xFFF0 0xF000 0x0001 0x0100 0x7FFF
                               0xABCD 0x00A5 p))
             = tx p ++ 0x03 :: out)
      /\ (forall (rest tx0 : list Z) (log0 : list event),
             fst (cmd_store (mkPort (out ++ 0x01 :: rest) tx0 log0))
             = Return (Some [0x0000; 0xFFFF; 0x1234; 0x00FF; 0xFF00; 0x8000;
                             0xF202; 0xFFF0; 0xF000; 0x0001; 0x0100; 0x7FFF;
                             0xABCD; 0x00A5])).
Proof.
  assert (Hregs : Forall uint16
                    [0x0000; 0xFFFF; 0x1234; 0x00FF; 0xFF00; 0x8000; 0xF202;
                     0xFFF0; 0xF000; 0x0001; 0x0100; 0x7FFF; 0xABCD; 0x00A5])
    by (repeat constructor; unfold uint16; lia).
  split; [exact Hregs|].
  exact (load_store_round_trip _ _ _ _ _ _ _ _ _ _ _ _ _ _ Hregs).
Defined.

(** The demonstration call [cmd_load(1, 2, ..., 14)], acknowledged by the
    board. *)
Example cmd_load_demo :
  cmd_load 1 2 3 4 5 6 7 8 9 10 11 12 13 14 (mkPort [0x01] [] [])
  = (Return (Some true),
     mkPort [] [0x03; 1; 0; 2; 0; 3; 0; 4; 0; 5; 0; 6; 0; 7; 0; 8; 0; 9; 0;
                10; 0; 11; 0; 12; 0; 13; 0; 14; 0]
            [EvWrite [0x03];
             EvWrite [1; 0; 2; 0; 3; 0; 4; 0; 5; 0; 6; 0; 7; 0; 8; 0; 9; 0;
                      10; 0; 11; 0; 12; 0; 13; 0; 14; 0];
             EvRead 1 [0x01]]).
Proof. reflexivity. Qed.

(** * Further properties of the client *)

(** ** Framing of a request *)

(** X1.  When the payload has the length the command table declares
    ([None] counting as no payload), [_send_command] returns [True] and
    puts on the wire the opcode byte followed by the payload bytes
    verbatim, nothing before, between or after; it reads nothing. *)
Theorem send_command_frames_opcode_then_payload
        (command : Command) (data : option (list Z)) (p : port) :
  data_length data = payload_length command ->
  let payload := match data with Some d => d | None => [] end in
  fst (_send_command command data p) = Return true
  /\ tx (snd (_send_command command data p))
     = tx p ++ opcode command :: payload
  /\ rx (snd (_send_command command data p)) = rx p.
Proof.
  intros Hlen payload. subst payload. destruct data as [d|].
  - rewrite (send_command_Some command d p Hlen). simpl.
    rewrite <- app_assoc. auto.
  - rewrite (send_command_None command p (eq_sym Hlen)). simpl. auto.
Qed.

Lemma send_command_frames_opcode_then_payload_witness :
  data_length (Some [0xA5; 0x01]) = payload_length CmdWritePin
  /\ fst (_send_command CmdWritePin (Some [0xA5; 0x01]) (mkPort [7] [9] []))
     = Return true
  /\ tx (snd (_send_command CmdWritePin (Some [0xA5; 0x01])
                            (mkPort [7] [9] [])))
     = [9] ++ opcode CmdWritePin :: [0xA5; 0x01]
  /\ rx (snd (_send_command CmdWritePin (Some [0xA5; 0x01])
                            (mkPort [7] [9] []))) = [7].
Proof.
  split; [reflexivity|].
  exact (send_command_frames_opcode_then_payload
           CmdWritePin (Some [0xA5; 0x01]) (mkPort [7] [9] []) eq_refl).
Defined.

(** X2.  When the payload length differs from the declared one,
    [_send_command] raises after the opcode write and before the payload
    write: [AssertionError] when a payload was given, [TypeError] (from
    [len(None)]) when [None] was given for a command that declares a
    payload.  The payload itself is never written. *)
Theorem send_command_mismatch_raises
        (command : Command) (data : option (list Z)) (p : port) :
  data_length data <> payload_length command ->
  _send_command command data p
  = (Raise (match data with
            | Some _ => AssertionError
            | None => TypeError
            end),
     wrote [opcode command] p).
Proof.
  intros Hne.
  destruct (send_command_mismatch command data p Hne) as [e [_ Hrun]].
  rewrite Hrun. f_equal. f_equal.
  revert Hrun. unfold _send_command, bind, lift.
  rewrite to_bytes_opcode. unfold data_length, payload_length in Hne.
  destruct data as [d|]; simpl.
  - apply Z.eqb_neq in Hne. rewrite Hne. simpl. congruence.
  - assert (H0 : (snd (value command) =? 0) = false)
      by (apply Z.eqb_neq; congruence).
    rewrite H0. simpl. congruence.
Qed.

Lemma send_command_mismatch_raises_witness :
  data_length None <> payload_length CmdLoad
  /\ _send_command CmdLoad None (mkPort [] [] [])
     = (Raise TypeError, wrote [opcode CmdLoad] (mkPort [] [] [])).
Proof.
  assert (Hne : data_length None <> payload_length CmdLoad)
    by (intros H; discriminate H).
  split; [exact Hne|].
  exact (send_command_mismatch_raises CmdLoad None (mkPort [] [] []) Hne).
Defined.

(** ** What a read does to the port *)

Lemma receive_n_port (n : nat) (p : port) :
  tx (snd (_receive_n n p)) = tx p
  /\ rx (snd (_receive_n n p)) = skipn n (rx p).
Proof.
  destruct (firstn n (rx p)) as [|b rc] eqn:Hrc.
  - rewrite (receive_n_empty n p Hrc). simpl. auto.
  - assert (Hne : firstn n (rx p) <> []) by (rewrite Hrc; discriminate).
    rewrite (receive_n_nonempty n p Hne). cbv zeta.
    destruct (last (firstn n (rx p)) 0 =? 1);
      [|destruct (last (firstn n (rx p)) 0 =? 0)]; simpl; auto.
Qed.

(** X3.  Whatever arrives, [_receive_n n] writes nothing (no command is
    ever re-sent from the decode path) and takes exactly the first [n]
    received bytes off the port, or all of them when fewer arrived; on
    every path, the exception included, later bytes stay queued for the
    next call. *)
Theorem receive_n_writes_nothing_and_consumes_n (n : nat) (p : port) :
  tx (snd (_receive_n n p)) = tx p
  /\ rx (snd (_receive_n n p)) = skipn n (rx p)
  /\ firstn n (rx p) ++ rx (snd (_receive_n n p)) = rx p.
Proof.
  destruct (receive_n_port n p) as [Htx Hrx].
  repeat split; try assumption.
  rewrite Hrx. apply firstn_skipn.
Qed.

Lemma receive_n_returns (n : nat) (p p' : port) (r : option (list Z)) :
  _receive_n n p = (Return r, p') ->
  firstn n (rx p) <> []
  /\ r = if last (firstn n (rx p)) 0 =? 0x01
         then Some (firstn n (rx p)) else None.
Proof.
  intros Hrun.
  destruct (firstn n (rx p)) as [|b rc] eqn:Hrc.
  - rewrite (receive_n_empty n p Hrc) in Hrun. discriminate Hrun.
  - assert (Hne : firstn n (rx p) <> []) by (rewrite Hrc; discriminate).
    rewrite (receive_n_nonempty n p Hne) in Hrun. cbv zeta in Hrun.
    rewrite Hrc in Hrun.
    split; [discriminate|].
    destruct (last (b :: rc) 0 =? 1);
      [|destruct (last (b :: rc) 0 =? 0)]; congruence.
Qed.

(** X4.  A list returned by [_receive_n n] is never empty, never longer
    than [n], is exactly the bytes read, and always ends in the status
    byte [0x01]; [None] is returned only when the last byte read is not
    [0x01]. *)
Theorem receive_n_result_shape
        (n : nat) (p p' : port) (r : option (list Z)) :
  _receive_n n p = (Return r, p') ->
  match r with
  | Some rc => rc = firstn n (rx p)
               /\ (0 < List.length rc <= n)%nat
               /\ last rc 0 = 0x01
  | None => firstn n (rx p) <> [] /\ last (firstn n (rx p)) 0 <> 0x01
  end.
Proof.
  intros Hrun. destruct (receive_n_returns n p p' r Hrun) as [Hne Hr].
  destruct (Z.eqb_spec (last (firstn n (rx p)) 0) 1) as [H1|H1]; subst r.
  - split; [reflexivity|]. split; [|exact H1].
    pose proof (firstn_le_length n (rx p)).
    destruct (firstn n (rx p)); [congruence | simpl in *; lia].
  - split; assumption.
Qed.

Lemma receive_n_result_shape_witness :
  _receive_n 2 (mkPort [0x5A; 0x01; 0x33] [] [])
  = (Return (Some [0x5A; 0x01]), after_read 2 (mkPort [0x5A; 0x01; 0x33] [] []))
  /\ ([0x5A; 0x01] = firstn 2 (rx (mkPort [0x5A; 0x01; 0x33] [] []))
      /\ (0 < List.length ([0x5A; 0x01])%Z <= 2)%nat
      /\ last [0x5A; 0x01] 0 = 0x01).
Proof.
  split; [reflexivity|].
  exact (receive_n_result_shape
           2 (mkPort [0x5A; 0x01; 0x33] [] [])
           (after_read 2 (mkPort [0x5A; 0x01; 0x33] [] []))
           (Some [0x5A; 0x01]) eq_refl).
Defined.

(** ** The typed operations on the port *)

(** A typed operation without payload: the guard is dead, the opcode is
    written, and what follows runs on the port so obtained. *)
Lemma send_then (A : Type) (command : Command) (dead live : M A) (p : port) :
  payload_length command = 0 ->
  (sent <- _send_command command None ;;
   if Bool.eqb sent false then dead else live) p
  = live (wrote [opcode command] p).
Proof.
  intros Hlen. rewrite guard_is_dead. unfold bind.
  rewrite (send_command_None command p Hlen). reflexivity.
Qed.

Ltac run_op :=
  rewrite send_then by reflexivity; unfold bind at 1.

Ltac pure_parse :=
  unfold bind, lift, ret;
  repeat match goal with
         | |- context [match ?r with Return _ => _ | Raise _ => _ end] =>
             destruct r
         end;
  reflexivity.

Lemma cmd_version_port (p : port) :
  snd (cmd_version p) = snd (_receive_n 9 (wrote [0x01] p)).
Proof.
  unfold cmd_version. run_op.
  destruct (_receive_n 9 _) as [[[rc|]|e] p2]; pure_parse.
Qed.

Lemma cmd_reset_port (p : port) :
  snd (cmd_reset p) = snd (_receive_n 1 (wrote [0x02] p)).
Proof.
  unfold cmd_reset. run_op.
  destruct (_receive_n 1 _) as [[[rc|]|e] p2]; pure_parse.
Qed.

Lemma cmd_cycle_port (p : port) :
  snd (cmd_cycle p) = snd (_receive_n 1 (wrote [0x04] p)).
Proof.
  unfold cmd_cycle. run_op.
  destruct (_receive_n 1 _) as [[[rc|]|e] p2]; pure_parse.
Qed.

Lemma cmd_read_address_port (p : port) :
  snd (cmd_read_address p) = snd (_receive_n 4 (wrote [0x05] p)).
Proof.
  unfold cmd_read_address. run_op.
  destruct (_receive_n 4 _) as [[[rc|]|e] p2]; pure_parse.
Qed.

Lemma cmd_read_status_port (p : port) :
  snd (cmd_read_status p) = snd (_receive_n 2 (wrote [0x06] p)).
Proof.
  unfold cmd_read_status. run_op.
  destruct (_receive_n 2 _) as [[[rc|]|e] p2]; pure_parse.
Qed.

Lemma cmd_read_8288_command_port (p : port) :
  snd (cmd_read_8288_command p) = snd (_receive_n 2 (wrote [0x07] p)).
Proof.
  unfold cmd_read_8288_command. run_op.
  destruct (_receive_n 2 _) as [[[rc|]|e] p2]; pure_parse.
Qed.

Lemma cmd_read_8288_control_port (p : port) :
  snd (cmd_read_8288_control p) = snd (_receive_n 2 (wrote [0x08] p)).
Proof.
  unfold cmd_read_8288_control. run_op.
  destruct (_receive_n 2 _) as [[[rc|]|e] p2]; pure_parse.
Qed.

Lemma cmd_store_port (p : port) :
  snd (cmd_store p) = snd (_receive_n 29 (wrote [0x0D] p)).
Proof.
  unfold cmd_store. run_op.
  destruct (_receive_n 29 _) as [[[rc|]|e] p2]; pure_parse.
Qed.

Lemma after_opcode (n : nat) (op : Z) (p : port) :
  tx (snd (_receive_n n (wrote [op] p))) = tx p ++ [op]
  /\ rx (snd (_receive_n n (wrote [op] p))) = skipn n (rx p).
Proof.
  destruct (receive_n_port n (wrote [op] p)) as [Htx Hrx].
  rewrite Htx, Hrx. simpl. auto.
Qed.

(** X5.  Each operation without payload writes exactly one byte, its
    opcode (0x01, 0x02, 0x04, 0x05, 0x06, 0x07, 0x08, 0x0D), and takes
    exactly its fixed reply length (9, 1, 1, 4, 2, 2, 2, 29 bytes, or what
    arrived of them) off the port, whatever the reply is and whether the
    call returns or raises. *)
Theorem typed_operations_write_opcode_and_read_fixed_length (p : port) :
  (tx (snd (cmd_version p)) = tx p ++ [0x01]
   /\ rx (snd (cmd_version p)) = skipn 9 (rx p))
  /\ (tx (snd (cmd_reset p)) = tx p ++ [0x02]
      /\ rx (snd (cmd_reset p)) = skipn 1 (rx p))
  /\ (tx (snd (cmd_cycle p)) = tx p ++ [0x04]
      /\ rx (snd (cmd_cycle p)) = skipn 1 (rx p))
  /\ (tx (snd (cmd_read_address p)) = tx p ++ [0x05]
      /\ rx (snd (cmd_read_address p)) = skipn 4 (rx p))
  /\ (tx (snd (cmd_read_status p)) = tx p ++ [0x06]
      /\ rx (snd (cmd_read_status p)) = skipn 2 (rx p))
  /\ (tx (snd (cmd_read_8288_command p)) = tx p ++ [0x07]
      /\ rx (snd (cmd_read_8288_command p)) = skipn 2 (rx p))
  /\ (tx (snd (cmd_read_8288_control p)) = tx p ++ [0x08]
      /\ rx (snd (cmd_read_8288_control p)) = skipn 2 (rx p))
  /\ (tx (snd (cmd_store p)) = tx p ++ [0x0D]
      /\ rx (snd (cmd_store p)) = skipn 29 (rx p)).
Proof.
  rewrite cmd_version_port, cmd_reset_port, cmd_cycle_port,
    cmd_read_address_port, cmd_read_status_port, cmd_read_8288_command_port,
    cmd_read_8288_control_port, cmd_store_port.
  repeat split; apply after_opcode.
Qed.

(** ** A silent board *)

Lemma receive_n_silent (n : nat) (op : Z) (p : port) :
  rx p = [] ->
  _receive_n n (wrote [op] p)
  = (Raise IndexError, after_read n (wrote [op] p)).
Proof.
  intros Hrx. apply receive_n_empty. simpl. rewrite Hrx. apply firstn_nil.
Qed.

(** X6.  When nothing arrives before the timeout, every operation without
    payload ends in an uncaught [IndexError], raised after its opcode has
    been written and the read has returned empty: the caller gets neither
    [None] nor [False]. *)
Theorem typed_operations_raise_IndexError_on_silence (p : port) :
  rx p = [] ->
  cmd_version p = (Raise IndexError, after_read 9 (wrote [0x01] p))
  /\ cmd_reset p = (Raise IndexError, after_read 1 (wrote [0x02] p))
  /\ cmd_cycle p = (Raise IndexError, after_read 1 (wrote [0x04] p))
  /\ cmd_read_address p = (Raise IndexError, after_read 4 (wrote [0x05] p))
  /\ cmd_read_status p = (Raise IndexError, after_read 2 (wrote [0x06] p))
  /\ cmd_read_8288_command p
     = (Raise IndexError, after_read 2 (wrote [0x07] p))
  /\ cmd_read_8288_control p
     = (Raise IndexError, after_read 2 (wrote [0x08] p))
  /\ cmd_store p = (Raise IndexError, after_read 29 (wrote [0x0D] p)).
Proof.
  intros Hrx.
  unfold cmd_version, cmd_reset, cmd_cycle, cmd_read_address, cmd_read_status,
    cmd_read_8288_command, cmd_read_8288_control, cmd_store.
  repeat split; run_op;
    match goal with
    | |- context [_receive_n ?n (wrote [?op] p)] =>
        rewrite (receive_n_silent n op p Hrx)
    end; reflexivity.
Qed.

Lemma typed_operations_raise_IndexError_on_silence_witness :
  rx (mkPort [] [] []) = []
  /\ cmd_store (mkPort [] [] [])
     = (Raise IndexError, after_read 29 (wrote [0x0D] (mkPort [] [] []))).
Proof.
  split; [reflexivity|].
  exact (proj2 (proj2 (proj2 (proj2 (proj2 (proj2 (proj2
           (typed_operations_raise_IndexError_on_silence
              (mkPort [] [] []) eq_refl)))))))).
Defined.

(** ** Which exceptions can escape *)








(** ** Replies that arrive in full *)

Lemma reply_wrote (n : nat) (op : Z) (p : port) :
  firstn n (rx (wrote [op] p)) = reply n p.
Proof. reflexivity. Qed.

Lemma receive_n_refused (n : nat) (op : Z) (p : port) :
  reply_refused n p ->
  fst (_receive_n n (wrote [op] p)) = Return None.
Proof.
  intros [Hne Hst].
  rewrite receive_n_nonempty by (rewrite reply_wrote; exact Hne).
  cbv zeta. rewrite reply_wrote.
  apply Z.eqb_neq in Hst. rewrite Hst.
  destruct (last (reply n p) 0 =? 0); reflexivity.
Qed.

Ltac refused H :=
  run_op;
  match goal with
  | |- context [_receive_n ?n (wrote [?op] ?p)] =>
      pose proof (receive_n_refused n op p H) as Hrecv;
      destruct (_receive_n n (wrote [op] p)) as [r p2];
      simpl in Hrecv; subst r; reflexivity
  end.

(** X8.  When something arrives and its last byte is not [0x01] (a
    rejection, a stray byte, or a truncated reply), the operations that
    return a value all return [None], and [cmd_reset] and [cmd_cycle]
    return [False]; none of them raises. *)
Theorem typed_operations_report_refusal (p : port) :
  (reply_refused 9 p -> fst (cmd_version p) = Return None)
  /\ (reply_refused 1 p -> fst (cmd_reset p) = Return (Some false))
  /\ (reply_refused 1 p -> fst (cmd_cycle p) = Return (Some false))
  /\ (reply_refused 4 p -> fst (cmd_read_address p) = Return None)
  /\ (reply_refused 2 p -> fst (cmd_read_status p) = Return None)
  /\ (reply_refused 2 p -> fst (cmd_read_8288_command p) = Return None)
  /\ (reply_refused 2 p -> fst (cmd_read_8288_control p) = Return None)
  /\ (reply_refused 29 p -> fst (cmd_store p) = Return None).
Proof.
  unfold cmd_version, cmd_reset, cmd_cycle, cmd_read_address, cmd_read_status,
    cmd_read_8288_command, cmd_read_8288_control, cmd_store.
  repeat split; intros H; refused H.
Qed.

Lemma typed_operations_report_refusal_witness :
  reply_refused 29 (mkPort [0x10; 0x20; 0x00] [] [])
  /\ fst (cmd_store (mkPort [0x10; 0x20; 0x00] [] [])) = Return None.
Proof.
  assert (H : reply_refused 29 (mkPort [0x10; 0x20; 0x00] [] []))
    by (split; discriminate).
  split; [exact H|].
  exact (proj2 (proj2 (proj2 (proj2 (proj2 (proj2 (proj2
           (typed_operations_report_refusal
              (mkPort [0x10; 0x20; 0x00] [] [])))))))) H).
Defined.

(** X9.  [cmd_reset] and [cmd_cycle] return [True] exactly when the one
    reply byte is [0x01], [False] for every other byte, and leave the
    bytes behind it on the port. *)
Theorem reset_and_cycle_return_True_iff_status_ok :
  forall (b : Z) (rest tx0 : list Z) (log0 : list event),
    fst (cmd_reset (mkPort (b :: rest) tx0 log0)) = Return (Some (b =? 0x01))
    /\ fst (cmd_cycle (mkPort (b :: rest) tx0 log0)) = Return (Some (b =? 0x01))
    /\ rx (snd (cmd_reset (mkPort (b :: rest) tx0 log0))) = rest
    /\ rx (snd (cmd_cycle (mkPort (b :: rest) tx0 log0))) = rest.
Proof.
  intros b rest tx0 log0.
  unfold cmd_reset, cmd_cycle.
  repeat split; run_op;
    (rewrite receive_n_nonempty by discriminate); cbv zeta; simpl;
    destruct (Z.eqb_spec b 1) as [->|Hb]; try reflexivity;
    destruct (b =? 0); reflexivity.
Qed.

Tactic Notation "complete_reply" integer(n) :=
  unfold reply_complete; intros p Hlen;
  destruct p as [rxp txp logp]; simpl in Hlen;
  do n (destruct rxp as [|? rxp]; [simpl in Hlen; lia|]);
  clear Hlen; run_op;
  (rewrite receive_n_nonempty by discriminate); cbv zeta;
  match goal with
  | |- context [last ?l 0 =? 1] =>
      let s := eval cbv in (last l 0) in
      change (last l 0) with s;
      destruct (s =? 1); [|destruct (s =? 0)]
  end; eexists; reflexivity.

Lemma cmd_version_returns :
  forall p, reply_complete 9 p -> exists r, fst (cmd_version p) = Return r.
Proof. unfold cmd_version. complete_reply 9. Qed.

Lemma cmd_reset_returns :
  forall p, reply_complete 1 p -> exists r, fst (cmd_reset p) = Return r.
Proof. unfold cmd_reset. complete_reply 1. Qed.

Lemma cmd_cycle_returns :
  forall p, reply_complete 1 p -> exists r, fst (cmd_cycle p) = Return r.
Proof. unfold cmd_cycle. complete_reply 1. Qed.

Lemma cmd_read_address_returns :
  forall p, reply_complete 4 p ->
            exists r, fst (cmd_read_address p) = Return r.
Proof. unfold cmd_read_address. complete_reply 4. Qed.

Lemma cmd_read_status_returns :
  forall p, reply_complete 2 p ->
            exists r, fst (cmd_read_status p) = Return r.
Proof. unfold cmd_read_status. complete_reply 2. Qed.

Lemma cmd_read_8288_command_returns :
  forall p, reply_complete 2 p ->
            exists r, fst (cmd_read_8288_command p) = Return r.
Proof. unfold cmd_read_8288_command. complete_reply 2. Qed.

Lemma cmd_read_8288_control_returns :
  forall p, reply_complete 2 p ->
            exists r, fst (cmd_read_8288_control p) = Return r.
Proof. unfold cmd_read_8288_control. complete_reply 2. Qed.

Lemma cmd_store_returns :
  forall p, reply_complete 29 p -> exists r, fst (cmd_store p) = Return r.
Proof. unfold cmd_store. complete_reply 29. Qed.

(** X10.  When the whole reply of an operation arrives (9, 1, 1, 4, 2, 2,
    2 or 29 bytes), the operation returns and raises nothing, whatever
    the bytes are. *)
Theorem typed_operations_return_on_complete_reply (p : port) :
  (reply_complete 9 p -> exists r, fst (cmd_version p) = Return r)
  /\ (reply_complete 1 p -> exists r, fst (cmd_reset p) = Return r)
  /\ (reply_complete 1 p -> exists r, fst (cmd_cycle p) = Return r)
  /\ (reply_complete 4 p -> exists r, fst (cmd_read_address p) = Return r)
  /\ (reply_complete 2 p -> exists r, fst (cmd_read_status p) = Return r)
  /\ (reply_complete 2 p ->
      exists r, fst (cmd_read_8288_command p) = Return r)
  /\ (reply_complete 2 p ->
      exists r, fst (cmd_read_8288_control p) = Return r)
  /\ (reply_complete 29 p -> exists r, fst (cmd_store p) = Return r).
Proof.
  repeat split.
  - apply cmd_version_returns.
  - apply cmd_reset_returns.
  - apply cmd_cycle_returns.
  - apply cmd_read_address_returns.
  - apply cmd_read_status_returns.
  - apply cmd_read_8288_command_returns.
  - apply cmd_read_8288_control_returns.
  - apply cmd_store_returns.
Qed.

Lemma typed_operations_return_on_complete_reply_witness :
  reply_complete 4 (mkPort [0x34; 0x12; 0x00; 0x00; 0x07] [] [])
  /\ exists r,
      fst (cmd_read_address (mkPort [0x34; 0x12; 0x00; 0x00; 0x07] [] []))
      = Return r.
Proof.
  assert (H : reply_complete 4 (mkPort [0x34; 0x12; 0x00; 0x00; 0x07] [] []))
    by (unfold reply_complete; simpl; lia).
  split; [exact H|].
  exact (proj1 (proj2 (proj2 (proj2
           (typed_operations_return_on_complete_reply
              (mkPort [0x34; 0x12; 0x00; 0x00; 0x07] [] []))))) H).
Defined.

(** X11.  [cmd_read_status], [cmd_read_8288_command] and
    [cmd_read_8288_control] differ only in the opcode they send (0x06,
    0x07, 0x08): on a two-byte reply whose status byte is [0x01] each
    returns the first byte unchanged and leaves what follows on the port. *)
Theorem status_reads_return_first_byte :
  forall (b : Z) (rest tx0 : list Z) (log0 : list event),
    let p := mkPort (b :: 0x01 :: rest) tx0 log0 in
    cmd_read_status p
    = (Return (Some b), after_read 2 (wrote [0x06] p))
    /\ cmd_read_8288_command p
       = (Return (Some b), after_read 2 (wrote [0x07] p))
    /\ cmd_read_8288_control p
       = (Return (Some b), after_read 2 (wrote [0x08] p))
    /\ rx (after_read 2 (wrote [0x06] p)) = rest.
Proof. intros b rest tx0 log0 p. repeat split. Qed.

(** X12.  On a nine-byte reply whose status byte is [0x01],
    [cmd_version] returns the first seven bytes as a seven-character name
    and the eighth byte as the version number, for any byte values. *)
Theorem cmd_version_parses_name_and_number :
  forall (c0 c1 c2 c3 c4 c5 c6 v : Z) (rest tx0 : list Z) (log0 : list event),
    exists name : string,
      fst (cmd_version
             (mkPort (c0 :: c1 :: c2 :: c3 :: c4 :: c5 :: c6 :: v :: 0x01
                         :: rest) tx0 log0))
      = Return (Some (name, v))
      /\ name = String.append (chr c0) (String.append (chr c1)
                 (String.append (chr c2) (String.append (chr c3)
                 (String.append (chr c4) (String.append (chr c5) (chr c6))))))
      /\ String.length name = 7%nat.
Proof.
  intros. eexists. split; [reflexivity|]. split; reflexivity.
Qed.

(** ** Loading registers *)

Lemma uint16_dec (v : Z) : {uint16 v} + {~ uint16 v}.
Proof.
  unfold uint16.
  destruct (Z_le_dec 0 v); [|right; lia].
  destruct (Z_le_dec v 65535); [left; lia | right; lia].
Qed.

Lemma to_bytes_overflow (v : Z) :
  ~ uint16 v -> to_bytes v 2 little = Raise OverflowError.
Proof.
  unfold uint16, to_bytes. intros Hv.
  change (256 ^ Z.of_nat 2) with 65536.
  destruct (Z.ltb_spec v 0) as [Hneg|Hpos]; [reflexivity|].
  destruct (Z.leb_spec 65536 v) as [Hbig|Hsmall]; [reflexivity|].
  exfalso. apply Hv. lia.
Qed.

Ltac next_register v :=
  destruct (uint16_dec v) as [?Hin|?Hout];
  [ rewrite (to_bytes_le16 v) by assumption
  | rewrite (to_bytes_overflow v) by assumption; reflexivity ].

(** X13.  When any of the fourteen values is negative or above 0xFFFF,
    [cmd_load] raises [OverflowError] while it builds the payload, before
    anything is written: the port is left exactly as it was. *)
Theorem cmd_load_rejects_out_of_range_before_writing
        (AX BX CX DX SS SP FLAGS IP CS DS ES BP SI DI : Z) (p : port) :
  ~ Forall uint16 [AX; BX; CX; DX; SS; SP; FLAGS; IP; CS; DS; ES; BP; SI; DI] ->
  cmd_load AX BX CX DX SS SP FLAGS IP CS DS ES BP SI DI p
  = (Raise OverflowError, p).
Proof.
  intros Hbad. unfold cmd_load, append_to_bytes.
  next_register AX. next_register BX. next_register CX. next_register DX.
  next_register SS. next_register SP. next_register FLAGS. next_register IP.
  next_register CS. next_register DS. next_register ES. next_register BP.
  next_register SI. next_register DI.
  exfalso. apply Hbad.
  repeat (apply Forall_cons; [assumption|]). apply Forall_nil.
Qed.

Lemma cmd_load_rejects_out_of_range_before_writing_witness :
  ~ Forall uint16 [1; 2; 3; 4; 5; 6; 7; 8; 9; 10; 11; 12; 0x10000; 14]
  /\ cmd_load 1 2 3 4 5 6 7 8 9 10 11 12 0x10000 14 (mkPort [0x01] [] [])
     = (Raise OverflowError, mkPort [0x01] [] []).
Proof.
  assert (Hbad : ~ Forall uint16
                   [1; 2; 3; 4; 5; 6; 7; 8; 9; 10; 11; 12; 0x10000; 14]).
  { intros H.
    do 12 (apply Forall_inv_tail in H). apply Forall_inv in H.
    unfold uint16 in H. lia. }
  split; [exact Hbad|].
  exact (cmd_load_rejects_out_of_range_before_writing
           1 2 3 4 5 6 7 8 9 10 11 12 0x10000 14 (mkPort [0x01] [] []) Hbad).
Defined.

Lemma flat_map_le16_length (regs : list Z) :
  List.length (flat_map le16 regs) = (2 * List.length regs)%nat.
Proof.
  induction regs as [|v regs IH]; [reflexivity|].
  change (flat_map le16 (v :: regs))
    with (v mod 256 :: v / 256 mod 256 :: flat_map le16 regs).
  simpl List.length. rewrite IH. lia.
Qed.

(** X14.  With fourteen 16-bit values, [cmd_load] never trips either
    assertion: it sends the opcode [0x03] and the 28 payload bytes, reads
    one reply byte, and returns [True] exactly when that byte is [0x01],
    [False] for any other byte; with no reply byte it raises
    [IndexError]. *)
Theorem cmd_load_returns_True_iff_status_ok
        (AX BX CX DX SS SP FLAGS IP CS DS ES BP SI DI : Z) :
  Forall uint16 [AX; BX; CX; DX; SS; SP; FLAGS; IP; CS; DS; ES; BP; SI; DI] ->
  let out := flat_map le16
               [AX; BX; CX; DX; SS; SP; FLAGS; IP; CS; DS; ES; BP; SI; DI] in
  (forall (b : Z) (rest tx0 : list Z) (log0 : list event),
      fst (cmd_load AX BX CX DX SS SP FLAGS IP CS DS ES BP SI DI
                    (mkPort (b :: rest) tx0 log0))
      = Return (Some (b =? 0x01))
      /\ tx (snd (cmd_load AX BX CX DX SS SP FLAGS IP CS DS ES BP SI DI
                           (mkPort (b :: rest) tx0 log0)))
         = tx0 ++ 0x03 :: out
      /\ rx (snd (cmd_load AX BX CX DX SS SP FLAGS IP CS DS ES BP SI DI
                           (mkPort (b :: rest) tx0 log0))) = rest)
  /\ (forall (tx0 : list Z) (log0 : list event),
         cmd_load AX BX CX DX SS SP FLAGS IP CS DS ES BP SI DI
                  (mkPort [] tx0 log0)
         = (Raise IndexError,
            after_read 1 (wrote out (wrote [0x03] (mkPort [] tx0 log0))))).
Proof.
  intros Hregs out.
  assert (Hlen : len out = payload_length CmdLoad).
  { unfold len, out. rewrite flat_map_le16_length. reflexivity. }
  split.
  - intros b rest tx0 log0.
    assert (Hrun : exists q,
               cmd_load AX BX CX DX SS SP FLAGS IP CS DS ES BP SI DI
                        (mkPort (b :: rest) tx0 log0)
               = (Return (Some (b =? 1)), q)
               /\ tx q = tx0 ++ 3 :: out /\ rx q = rest).
    { rewrite (cmd_load_sends _ _ _ _ _ _ _ _ _ _ _ _ _ _ _ Hregs).
      fold out. rewrite guard_is_dead. unfold bind at 1.
      rewrite (send_command_Some CmdLoad out _ Hlen). unfold bind.
      rewrite receive_n_nonempty by discriminate. cbv zeta.
      change (last (firstn 1 (rx (wrote out (wrote [opcode CmdLoad]
                (mkPort (b :: rest) tx0 log0))))) 0) with b.
      destruct (Z.eqb_spec b 1) as [->|Hb]; [|destruct (b =? 0)];
        eexists; (split; [reflexivity|]); simpl; rewrite <- app_assoc;
        auto. }
    destruct Hrun as [q [Hrun [Htx Hrx]]]. rewrite Hrun. simpl. auto.
  - intros tx0 log0.
    rewrite (cmd_load_sends _ _ _ _ _ _ _ _ _ _ _ _ _ _ _ Hregs).
    fold out. rewrite guard_is_dead. unfold bind at 1.
    rewrite (send_command_Some CmdLoad out _ Hlen). unfold bind.
    rewrite receive_n_empty by reflexivity. reflexivity.
Qed.

Lemma cmd_load_returns_True_iff_status_ok_witness :
  Forall uint16 [1; 2; 3; 4; 5; 6; 7; 8; 9; 10; 11; 12; 13; 14]
  /\ fst (cmd_load 1 2 3 4 5 6 7 8 9 10 11 12 13 14
                   (mkPort [0x00; 0x09] [] []))
     = Return (Some (0x00 =? 0x01)).
Proof.
  assert (Hregs : Forall uint16 [1; 2; 3; 4; 5; 6; 7; 8; 9; 10; 11; 12; 13; 14])
    by (repeat (apply Forall_cons; [unfold uint16; lia|]); apply Forall_nil).
  split; [exact Hregs|].
  exact (proj1 (proj1 (cmd_load_returns_True_iff_status_ok
                         1 2 3 4 5 6 7 8 9 10 11 12 13 14 Hregs)
                      0x00 [0x09] [] [])).
Defined.

(** ** Storing registers *)

Lemma pairs_induction (P : list Z -> Prop) :
  P [] ->
  (forall b, P [b]) ->
  (forall lo hi bs, P bs -> P (lo :: hi :: bs)) ->
  forall bs, P bs.
Proof.
  intros Hnil Hone Hstep bs.
  assert (Hboth : P bs /\ forall b, P (b :: bs)).
  { induction bs as [|b bs [IH1 IH2]].
    - split; [exact Hnil | exact Hone].
    - split; [apply IH2|]. intros b'. apply Hstep. exact IH1. }
  exact (proj1 Hboth).
Qed.

Lemma pair_value (lo hi : Z) :
  byte_value lo -> byte_value hi ->
  Z.lor (Z.shiftl hi 8) lo = lo + 256 * hi.
Proof.
  unfold byte_value. intros Hlo Hhi.
  rewrite Z.lor_comm, lor_low_shiftl by lia. lia.
Qed.

Lemma le16_of_pair (lo hi : Z) :
  byte_value lo -> byte_value hi ->
  le16 (Z.lor (Z.shiftl hi 8) lo) = [lo; hi].
Proof.
  intros Hlo Hhi. rewrite (pair_value lo hi Hlo Hhi).
  unfold byte_value in *. unfold le16.
  assert (Hmod : (lo + 256 * hi) mod 256 = lo).
  { symmetry. apply (Z.mod_unique_pos _ _ hi); lia. }
  assert (Hdiv : (lo + 256 * hi) / 256 = hi).
  { symmetry. apply (Z.div_unique_pos _ _ hi lo); lia. }
  rewrite Hmod, Hdiv, (Z.mod_small hi 256) by lia. reflexivity.
Qed.

Lemma pairs_le_uint16 (bs : list Z) :
  Forall byte_value bs -> Forall uint16 (pairs_le bs).
Proof.
  induction bs as [| b | lo hi bs IH] using pairs_induction; intros Hbs.
  - constructor.
  - constructor.
  - inversion Hbs as [|? ? Hlo Hbs']; subst.
    inversion Hbs' as [|? ? Hhi Hbs'']; subst.
    change (pairs_le (lo :: hi :: bs))
      with (Z.lor (Z.shiftl hi 8) lo :: pairs_le bs).
    constructor; [|exact (IH Hbs'')].
    rewrite (pair_value lo hi Hlo Hhi).
    unfold byte_value, uint16 in *. lia.
Qed.

Lemma pairs_le_nth (bs : list Z) :
  Forall byte_value bs ->
  forall i, (2 * i + 1 < List.length bs)%nat ->
            nth i (pairs_le bs) 0
            = nth (2 * i) bs 0 + 256 * nth (2 * i + 1) bs 0.
Proof.
  induction bs as [| b | lo hi bs IH] using pairs_induction;
    intros Hbs i Hi.
  - simpl in Hi. lia.
  - simpl in Hi. lia.
  - inversion Hbs as [|? ? Hlo Hbs']; subst.
    inversion Hbs' as [|? ? Hhi Hbs'']; subst.
    change (pairs_le (lo :: hi :: bs))
      with (Z.lor (Z.shiftl hi 8) lo :: pairs_le bs).
    destruct i as [|i].
    + simpl. apply pair_value; assumption.
    + replace (2 * S i)%nat with (S (S (2 * i))) by lia.
      replace (S (S (2 * i)) + 1)%nat with (S (S (2 * i + 1))) by lia.
      simpl nth. apply IH; [assumption|]. simpl in Hi. lia.
Qed.

Lemma pairs_le_length (bs : list Z) :
  (2 * List.length (pairs_le bs) <= List.length bs)%nat
  /\ (List.length bs <= 2 * List.length (pairs_le bs) + 1)%nat.
Proof.
  induction bs as [| b | lo hi bs IH] using pairs_induction.
  - simpl. lia.
  - simpl. lia.
  - change (pairs_le (lo :: hi :: bs))
      with (Z.lor (Z.shiftl hi 8) lo :: pairs_le bs).
    simpl List.length. lia.
Qed.

Lemma flat_map_le16_pairs_le (bs : list Z) :
  Forall byte_value bs ->
  Nat.even (List.length bs) = true ->
  flat_map le16 (pairs_le bs) = bs.
Proof.
  induction bs as [| b | lo hi bs IH] using pairs_induction;
    intros Hbs Heven.
  - reflexivity.
  - discriminate Heven.
  - inversion Hbs as [|? ? Hlo Hbs']; subst.
    inversion Hbs' as [|? ? Hhi Hbs'']; subst.
    change (pairs_le (lo :: hi :: bs))
      with (Z.lor (Z.shiftl hi 8) lo :: pairs_le bs).
    change (flat_map le16 (Z.lor (Z.shiftl hi 8) lo :: pairs_le bs))
      with (le16 (Z.lor (Z.shiftl hi 8) lo) ++ flat_map le16 (pairs_le bs)).
    rewrite (le16_of_pair lo hi Hlo Hhi), (IH Hbs'' Heven). reflexivity.
Qed.

(** X15.  On a complete reply whose status byte is [0x01], [cmd_store]
    returns exactly fourteen values; when the 28 payload bytes are byte
    values, value [i] is payload byte [2i] plus 256 times payload byte
    [2i+1], so each lies in 0..0xFFFF. *)
Theorem cmd_store_returns_fourteen_uint16
        (out rest tx0 : list Z) (log0 : list event) :
  List.length out = 28%nat ->
  Forall byte_value out ->
  exists regs : list Z,
    fst (cmd_store (mkPort (out ++ 0x01 :: rest) tx0 log0))
    = Return (Some regs)
    /\ List.length regs = 14%nat
    /\ Forall uint16 regs
    /\ forall i, (i < 14)%nat ->
                 nth i regs 0
                 = nth (2 * i) out 0 + 256 * nth (2 * i + 1) out 0.
Proof.
  intros Hlen Hbytes. exists (pairs_le out).
  split; [apply cmd_store_decodes; exact Hlen|].
  split; [pose proof (pairs_le_length out); lia|].
  split; [apply pairs_le_uint16; exact Hbytes|].
  intros i Hi. apply pairs_le_nth; [exact Hbytes | lia].
Qed.

Lemma cmd_store_returns_fourteen_uint16_witness :
  (List.length (repeat 0xFF 28) = 28%nat /\ Forall byte_value (repeat 0xFF 28))
  /\ exists regs : list Z,
      fst (cmd_store (mkPort (repeat 0xFF 28 ++ 0x01 :: []) [] []))
      = Return (Some regs)
      /\ List.length regs = 14%nat
      /\ Forall uint16 regs
      /\ forall i, (i < 14)%nat ->
                   nth i regs 0
                   = nth (2 * i) (repeat 0xFF 28) 0
                     + 256 * nth (2 * i + 1) (repeat 0xFF 28) 0.
Proof.
  assert (Hbytes : Forall byte_value (repeat 0xFF 28)).
  { apply Forall_forall. intros b Hb. apply repeat_spec in Hb. subst b.
    unfold byte_value. lia. }
  split; [split; [reflexivity | exact Hbytes]|].
  exact (cmd_store_returns_fourteen_uint16
           (repeat 0xFF 28) [] [] [] eq_refl Hbytes).
Defined.

(** X16.  The other direction of the round trip: the fourteen values
    [cmd_store] returns for a 28-byte payload of byte values, handed back
    to [cmd_load], put exactly those 28 bytes on the wire again, in the
    same order. *)
Theorem store_then_load_round_trip
        (out rest tx0 : list Z) (log0 : list event) :
  List.length out = 28%nat ->
  Forall byte_value out ->
  exists AX BX CX DX SS SP FLAGS IP CS DS ES BP SI DI : Z,
    fst (cmd_store (mkPort (out ++ 0x01 :: rest) tx0 log0))
    = Return (Some [AX; BX; CX; DX; SS; SP; FLAGS; IP; CS; DS; ES; BP; SI; DI])
    /\ forall p : port,
        tx (snd (cmd_load AX BX CX DX SS SP FLAGS IP CS DS ES BP SI DI p))
        = tx p ++ 0x03 :: out.
Proof.
  intros Hlen Hbytes.
  pose proof (cmd_store_decodes out rest tx0 log0 Hlen) as Hstore.
  pose proof (pairs_le_uint16 out Hbytes) as Hregs.
  assert (Heven : Nat.even (List.length out) = true)
    by (rewrite Hlen; reflexivity).
  pose proof (flat_map_le16_pairs_le out Hbytes Heven) as Hback.
  assert (Hlen14 : List.length (pairs_le out) = 14%nat)
    by (pose proof (pairs_le_length out); lia).
  destruct (pairs_le out) as [|AX regs]; [discriminate Hlen14|].
  do 13 (destruct regs as [|? regs]; [discriminate Hlen14|]).
  destruct regs; [|discriminate Hlen14].
  do 14 eexists. split; [exact Hstore|].
  intros p.
  rewrite (cmd_load_sends _ _ _ _ _ _ _ _ _ _ _ _ _ _ p Hregs).
  rewrite Hback. apply cmd_load_tx. unfold len. rewrite Hlen. reflexivity.
Qed.

Lemma store_then_load_round_trip_witness :
  (List.length (repeat 0xA5 28) = 28%nat /\ Forall byte_value (repeat 0xA5 28))
  /\ exists AX BX CX DX SS SP FLAGS IP CS DS ES BP SI DI : Z,
      fst (cmd_store (mkPort (repeat 0xA5 28 ++ 0x01 :: []) [] []))
      = Return (Some [AX; BX; CX; DX; SS; SP; FLAGS; IP; CS; DS; ES; BP;
                      SI; DI])
      /\ forall p : port,
          tx (snd (cmd_load AX BX CX DX SS SP FLAGS IP CS DS ES BP SI DI p))
          = tx p ++ 0x03 :: repeat 0xA5 28.
Proof.
  assert (Hbytes : Forall byte_value (repeat 0xA5 28)).
  { apply Forall_forall. intros b Hb. apply repeat_spec in Hb. subst b.
    unfold byte_value. lia. }
  split; [split; [reflexivity | exact Hbytes]|].
  exact (store_then_load_round_trip (repeat 0xA5 28) [] [] [] eq_refl Hbytes).
Defined.

(** ** Truncated replies that end in 0x01 *)

(** X17.  [cmd_store] does not check how many bytes it got.  A truncated
    reply of at most 27 bytes that happens to end in [0x01] makes it raise
    [IndexError]; a reply of exactly 28 bytes ending in [0x01] is taken as
    a success, and the status byte becomes the high byte of the fourteenth
    value. *)
Theorem cmd_store_on_truncated_reply :
  (forall (rc tx0 : list Z) (log0 : list event),
      (List.length rc < 27)%nat ->
      fst (cmd_store (mkPort (rc ++ [0x01]) tx0 log0)) = Raise IndexError)
  /\ (forall (rc : list Z) (lo : Z) (tx0 : list Z) (log0 : list event),
         List.length rc = 26%nat ->
         fst (cmd_store (mkPort (rc ++ [lo; 0x01]) tx0 log0))
         = Return (Some (pairs_le rc ++ [Z.lor (Z.shiftl 0x01 8) lo]))).
Proof.
  split.
  - intros rc tx0 log0 Hlen.
    do 27 (destruct rc as [|? rc]; [reflexivity|]).
    simpl in Hlen. lia.
  - intros rc lo tx0 log0 Hlen.
    do 26 (destruct rc as [|? rc]; [discriminate Hlen|]).
    destruct rc; [|discriminate Hlen].
    reflexivity.
Qed.

Lemma cmd_store_on_truncated_reply_witness :
  (List.length ([0x11; 0x22; 0x33])%Z < 27)%nat
  /\ fst (cmd_store (mkPort ([0x11; 0x22; 0x33] ++ [0x01]) [] []))
     = Raise IndexError.
Proof.
  assert (Hlen : (List.length ([0x11; 0x22; 0x33])%Z < 27)%nat)
    by (simpl; lia).
  split; [exact Hlen|].
  exact (proj1 cmd_store_on_truncated_reply [0x11; 0x22; 0x33] [] [] Hlen).
Defined.

(** X18.  The other parsing operations do not check the reply length
    either.  A reply one byte short that ends in [0x01] is taken as a
    success with the status byte parsed as data: [cmd_version] reports
    version number 1, [cmd_read_address] puts 1 in the top byte of the
    address, and the three status reads return 1. *)
Theorem short_reply_status_byte_parsed_as_data :
  forall (c0 c1 c2 c3 c4 c5 c6 b0 b1 : Z) (tx0 : list Z) (log0 : list event),
    fst (cmd_version
           (mkPort [c0; c1; c2; c3; c4; c5; c6; 0x01] tx0 log0))
    = Return (Some (join (map chr [c0; c1; c2; c3; c4; c5; c6]), 0x01))
    /\ fst (cmd_read_address (mkPort [b0; b1; 0x01] tx0 log0))
       = Return (Some (Z.lor (Z.lor b0 (Z.shiftl b1 8)) (Z.shiftl 0x01 16)))
    /\ fst (cmd_read_status (mkPort [0x01] tx0 log0)) = Return (Some 0x01)
    /\ fst (cmd_read_8288_command (mkPort [0x01] tx0 log0))
       = Return (Some 0x01)
    /\ fst (cmd_read_8288_control (mkPort [0x01] tx0 log0))
       = Return (Some 0x01).
Proof. intros. repeat split. Qed.

(** ** The script *)

Import Script.

Lemma cmd_version_silent (p : port) :
  rx p = [] ->
  cmd_version p = (Raise IndexError, after_read 9 (wrote [0x01] p)).
Proof.
  intros Hrx. unfold cmd_version. run_op.
  rewrite (receive_n_silent 9 (opcode CmdVersion) p Hrx). reflexivity.
Qed.

(** X19.  Run against a board that never answers, the script prints
    nothing: its first call raises [IndexError], which nothing catches,
    after the version opcode has been written; no later command is
    sent. *)
Theorem script_dies_on_silent_board (p : port) :
  rx p = [] ->
  main p = ([], Raise IndexError, after_read 9 (wrote [0x01] p)).
Proof.
  intros Hrx. unfold main, statements. cbn [run]. unfold bind at 1.
  rewrite (cmd_version_silent p Hrx). reflexivity.
Qed.

Lemma script_dies_on_silent_board_witness :
  rx (mkPort [] [] []) = []
  /\ main (mkPort [] [] [])
     = ([], Raise IndexError, after_read 9 (wrote [0x01] (mkPort [] [] []))).
Proof.
  split; [reflexivity|].
  exact (script_dies_on_silent_board (mkPort [] [] []) eq_refl).
Defined.

(** X20.  Run against a board that answers every command in full with
    status [0x01], the script completes, prints its nine lines with the
    parsed values, writes the nine frames (37 bytes) in order and
    consumes exactly the 51 reply bytes. *)
Theorem script_on_compliant_board
        (c0 c1 c2 c3 c4 c5 c6 ver a0 a1 a2 st cmd ctl : Z)
        (regs rest tx0 : list Z) (log0 : list event) :
  List.length regs = 28%nat ->
  exists q : port,
    main (mkPort ([c0; c1; c2; c3; c4; c5; c6; ver; 0x01]
                    ++ [0x01] ++ [0x01] ++ [0x01]
                    ++ [a0; a1; a2; 0x01]
                    ++ [st; 0x01] ++ [cmd; 0x01] ++ [ctl; 0x01]
                    ++ regs ++ 0x01 :: rest) tx0 log0)
    = ([ ("version"%string,
          PVersion (Some (join (map chr [c0; c1; c2; c3; c4; c5; c6]), ver)));
         ("reset"%string, PBool (Some true));
         ("load"%string, PBool (Some true));
         ("cycle"%string, PBool (Some true));
         ("read address"%string,
          PInt (Some (Z.lor (Z.lor a0 (Z.shiftl a1 8)) (Z.shiftl a2 16))));
         ("read status"%string, PInt (Some st));
         ("read 8288 command"%string, PInt (Some cmd));
         ("read 8288 control"%string, PInt (Some ctl));
         ("store"%string, PList (Some (pairs_le regs))) ],
       Return tt, q)
    /\ tx q = tx0 ++ [0x01; 0x02;
                      0x03; 1; 0; 2; 0; 3; 0; 4; 0; 5; 0; 6; 0; 7; 0; 8; 0;
                      9; 0; 10; 0; 11; 0; 12; 0; 13; 0; 14; 0;
                      0x04; 0x05; 0x06; 0x07; 0x08; 0x0D]
    /\ rx q = rest.
Proof.
  intros Hlen.
  do 28 (destruct regs as [|? regs]; [discriminate Hlen|]).
  destruct regs; [|discriminate Hlen].
  eexists. split; [lazy; reflexivity|].
  split; [|reflexivity].
  cbn [tx]. fold (@app Z). repeat rewrite <- app_assoc. reflexivity.
Qed.

Lemma script_on_compliant_board_witness :
  List.length (repeat 0x00 28) = 28%nat
  /\ exists q : port,
      main (mkPort ([0x41; 0x72; 0x64; 0x75; 0x69; 0x38; 0x38; 0x07; 0x01]
                      ++ [0x01] ++ [0x01] ++ [0x01]
                      ++ [0x34; 0x12; 0x00; 0x01]
                      ++ [0x80; 0x01] ++ [0x3F; 0x01] ++ [0x0C; 0x01]
                      ++ repeat 0x00 28 ++ 0x01 :: []) [] [])
      = ([ ("version"%string,
            PVersion (Some (join (map chr [0x41; 0x72; 0x64; 0x75; 0x69; 0x38;
                                          0x38]), 0x07)));
           ("reset"%string, PBool (Some true));
           ("load"%string, PBool (Some true));
           ("cycle"%string, PBool (Some true));
           ("read address"%string,
            PInt (Some (Z.lor (Z.lor 0x34 (Z.shiftl 0x12 8))
                              (Z.shiftl 0x00 16))));
           ("read status"%string, PInt (Some 0x80));
           ("read 8288 command"%string, PInt (Some 0x3F));
           ("read 8288 control"%string, PInt (Some 0x0C));
           ("store"%string, PList (Some (pairs_le (repeat 0x00 28)))) ],
         Return tt, q)
      /\ tx q = [] ++ [0x01; 0x02;
                       0x03; 1; 0; 2; 0; 3; 0; 4; 0; 5; 0; 6; 0; 7; 0; 8; 0;
                       9; 0; 10; 0; 11; 0; 12; 0; 13; 0; 14; 0;
                       0x04; 0x05; 0x06; 0x07; 0x08; 0x0D]
      /\ rx q = [].
Proof.
  split; [reflexivity|].
  exact (script_on_compliant_board
           0x41 0x72 0x64 0x75 0x69 0x38 0x38 0x07 0x34 0x12 0x00
           0x80 0x3F 0x0C (repeat 0x00 28) [] [] [] eq_refl).
Defined.

Lemma bind_ret_port {A B} (m : M A) (f : A -> B) (q : port) :
  snd ((v <- m ;; ret (f v)) q) = snd (m q).
Proof.
  unfold bind, ret. destruct (m q) as [[a|e] q']; reflexivity.
Qed.

Lemma run_writes_frames (stmts : list statement) (frames : list (list Z)) :
  Forall2 (fun (s : statement) (bs : list Z) =>
             forall q, tx (snd (snd s q)) = tx q ++ bs) stmts frames ->
  forall (stdout : list (string * printed)) (p : port),
  exists k : nat,
    (k <= List.length frames)%nat
    /\ tx (snd (run stmts stdout p)) = tx p ++ List.concat (firstn k frames)
    /\ match snd (fst (run stmts stdout p)) with
       | Return _ =>
           k = List.length frames
           /\ List.length (fst (fst (run stmts stdout p)))
              = (List.length stdout + k)%nat
       | Raise _ =>
           (1 <= k)%nat
           /\ List.length (fst (fst (run stmts stdout p)))
              = (List.length stdout + k - 1)%nat
       end.
Proof.
  induction 1 as [|[label call] bs stmts frames Hcall _ IH];
    intros stdout p.
  - exists 0%nat. simpl. rewrite app_nil_r. repeat split; lia.
  - specialize (Hcall p). simpl in Hcall. simpl run.
    destruct (call p) as [[v|e] p'].
    + destruct (IH (stdout ++ [(label, v)]) p') as [k [Hk [Htx Hout]]].
      exists (S k). simpl in Hcall. split; [simpl; lia|]. split.
      * rewrite Htx, Hcall. simpl. rewrite <- app_assoc. reflexivity.
      * destruct (snd (fst (run stmts (stdout ++ [(label, v)]) p')));
          destruct Hout as [Hk' Hlen]; rewrite Hlen, length_app; simpl;
          split; lia.
    + exists 1%nat. simpl in *. split; [lia|]. split.
      * rewrite Hcall, app_nil_r. reflexivity.
      * split; lia.
Qed.

Lemma cmd_load_demo_tx (q : port) :
  tx (snd (cmd_load 1 2 3 4 5 6 7 8 9 10 11 12 13 14 q))
  = tx q ++ [0x03; 1; 0; 2; 0; 3; 0; 4; 0; 5; 0; 6; 0; 7; 0; 8; 0; 9; 0;
             10; 0; 11; 0; 12; 0; 13; 0; 14; 0].
Proof.
  assert (Hregs : Forall uint16 [1; 2; 3; 4; 5; 6; 7; 8; 9; 10; 11; 12; 13; 14])
    by (repeat (apply Forall_cons; [unfold uint16; lia|]); apply Forall_nil).
  rewrite (cmd_load_sends _ _ _ _ _ _ _ _ _ _ _ _ _ _ q Hregs).
  rewrite cmd_load_tx by reflexivity. reflexivity.
Qed.

(** X21.  Whatever the board answers, the bytes the script writes are the
    first [k >= 1] of its nine fixed frames, in order: no frame is
    repeated, altered or sent out of turn.  When the script completes all
    nine frames were sent and nine lines printed; when it ends in an
    exception every frame but the last one sent has its line printed. *)
Theorem script_writes_a_prefix_of_its_frames (p : port) :
  exists k : nat,
    (1 <= k <= 9)%nat
    /\ tx (snd (main p))
       = tx p ++ List.concat (firstn k
                           [ [0x01]; [0x02];
                             [0x03; 1; 0; 2; 0; 3; 0; 4; 0; 5; 0; 6; 0; 7; 0;
                              8; 0; 9; 0; 10; 0; 11; 0; 12; 0; 13; 0; 14; 0];
                             [0x04]; [0x05]; [0x06]; [0x07]; [0x08]; [0x0D] ])
    /\ match snd (fst (main p)) with
       | Return _ => k = 9%nat /\ List.length (fst (fst (main p))) = 9%nat
       | Raise _ => List.length (fst (fst (main p))) = (k - 1)%nat
       end.
Proof.
  unfold main.
  match goal with
  | |- context [firstn _ ?fs] =>
      assert (Hframes :
                Forall2 (fun (s : statement) (bs : list Z) =>
                           forall q, tx (snd (snd s q)) = tx q ++ bs)
                        statements fs)
  end.
  { unfold statements.
    repeat (apply Forall2_cons;
            [intros q; cbn [snd]; rewrite bind_ret_port|]);
      [ rewrite cmd_version_port | rewrite cmd_reset_port
      | apply cmd_load_demo_tx | rewrite cmd_cycle_port
      | rewrite cmd_read_address_port | rewrite cmd_read_status_port
      | rewrite cmd_read_8288_command_port
      | rewrite cmd_read_8288_control_port | rewrite cmd_store_port
      | apply Forall2_nil ];
      apply after_opcode. }
  destruct (run_writes_frames _ _ Hframes [] p) as [k [Hk [Htx Hout]]].
  exists k. simpl List.length in *.
  destruct (snd (fst (run statements [] p))).
  - destruct Hout as [Hk9 Hlen]. subst k. repeat split; try lia; assumption.
  - destruct Hout as [Hk1 Hlen]. repeat split; try lia; try assumption.
Qed.
